(** * Android low memory killer (drivers/staging/android/lowmemorykiller.c)

    A shallow embedding of [lowmem_shrink] and of the early-suspend
    handlers, with the properties of the threshold walk, of the victim
    scan and of the profile swap.

    The C integers are integers of [Z] with the conversions written out.
    The target is 32-bit ARM: [int], [long], [unsigned long] and [size_t]
    are all 32 bits wide.  The kernel is built with wrapping signed
    arithmetic, so an [int] result is the mathematical result brought
    back into range by [to_int].

    [lowmem_print] only writes to the kernel log and is left out, with
    [lowmem_debug_level] and the [gfp_mask] argument it prints. *)

From Stdlib Require Import ZArith List Bool Lia Permutation.
Import ListNotations.
Local Open Scope Z_scope.

(** ** C integer conversions (ILP32) *)

Module CInt.

Definition INT_MIN : Z := - 2 ^ 31.
Definition INT_MAX : Z := 2 ^ 31 - 1.
Definition ULONG_MAX : Z := 2 ^ 32 - 1.

(** Conversion to [int] (and to [long], which has the same width). *)
Definition to_int (z : Z) : Z := (z + 2 ^ 31) mod 2 ^ 32 - 2 ^ 31.

(** Conversion to [unsigned long] (and to [size_t], [unsigned int]). *)
Definition to_ulong (z : Z) : Z := z mod 2 ^ 32.

Definition is_int (z : Z) : Prop := INT_MIN <= z <= INT_MAX.
Definition is_ulong (z : Z) : Prop := 0 <= z <= ULONG_MAX.

End CInt.
Import CInt.

(** ** The kernel services the driver calls *)

Module Kernel.

(** The largest [oom_adj] value (linux/oom.h, not among the sources; 15
    is also the last entry of the default [lowmem_adj]). *)
Definition OOM_ADJUST_MAX : Z := 15.

(** The [zone_stat_item]s the driver reads. *)
Inductive zone_stat_item : Type :=
| NR_FREE_PAGES
| NR_FILE_PAGES
| NR_SHMEM
| NR_ACTIVE_ANON
| NR_INACTIVE_ANON
| NR_ACTIVE_FILE
| NR_INACTIVE_FILE.

(** The global counters, as [global_page_state] returns them
    ([unsigned long]). *)
Record vm_stat : Type := VmStat {
  nr_free_pages : Z;
  nr_file_pages : Z;
  nr_shmem : Z;
  nr_active_anon : Z;
  nr_inactive_anon : Z;
  nr_active_file : Z;
  nr_inactive_file : Z
}.

Definition global_page_state (vm : vm_stat) (item : zone_stat_item) : Z :=
  match item with
  | NR_FREE_PAGES => nr_free_pages vm
  | NR_FILE_PAGES => nr_file_pages vm
  | NR_SHMEM => nr_shmem vm
  | NR_ACTIVE_ANON => nr_active_anon vm
  | NR_INACTIVE_ANON => nr_inactive_anon vm
  | NR_ACTIVE_FILE => nr_active_file vm
  | NR_INACTIVE_FILE => nr_inactive_file vm
  end.

(** One entry of the process list, as [lowmem_shrink] looks at it.
    [mm_rss] is [None] when [find_lock_task_mm] finds no thread with an
    address space, and [Some r] with [r = get_mm_rss(p->mm)] otherwise;
    [tif_memdie] and [oom_adj] are those of the thread [p] it returns. *)
Record task_struct : Type := Task {
  pid : Z;
  pf_kthread : bool;
  mm_rss : option Z;
  tif_memdie : bool;
  oom_adj : Z
}.

(** Modelled from the spec: the macro [time_before_eq] of
    linux/jiffies.h is not among the sources.  The deadline "has not
    elapsed" when the current tick count is not after it; the kernel
    decides this on the signed difference of the two [unsigned long]
    tick counts, so that it survives the wrap of [jiffies]. *)
Definition time_before_eq (a b : Z) : bool :=
  0 <=? to_int (to_int b - to_int a).

Definition set_tsk_memdie (t : task_struct) : task_struct :=
  Task (pid t) (pf_kthread t) (mm_rss t) true (oom_adj t).

(** [set_tsk_thread_flag(p, TIF_MEMDIE)] on the entry at position [i]. *)
Fixpoint set_memdie_at (i : nat) (ts : list task_struct) : list task_struct :=
  match ts with
  | [] => []
  | t :: rest =>
      match i with
      | O => set_tsk_memdie t :: rest
      | S i' => t :: set_memdie_at i' rest
      end
  end.

End Kernel.
Import Kernel.

(** ** The driver *)

Module Lowmem.

(** [ARRAY_SIZE(lowmem_adj)] *)
Definition ARRAY_SIZE : Z := 6.

(** The module's variables, the build option [CONFIG_SWAP], and the part
    of the kernel's state the driver reads and writes. *)
Record state : Type := State {
  CONFIG_SWAP : bool;
  lowmem_adj : list Z;
  lowmem_adj_size : Z;
  lowmem_minfree : list Z;
  lowmem_minfree_screen_on : list Z;
  lowmem_minfree_screen_off : list Z;
  lowmem_minfree_size : Z;
  lowmem_minfile : list Z;
  lowmem_minfile_size : Z;
  lowmem_deathpending_timeout : Z;
  lowmem_check_filepages : Z;
  fudgeswap : Z;
  (* kernel side *)
  jiffies : Z;
  vm : vm_stat;
  freeswap : Z;                 (* si.freeswap, unsigned long *)
  tasks : list task_struct;     (* for_each_process order *)
  sigkill_sent : list Z         (* pids given to send_sig(SIGKILL, ...) *)
}.

(** The initial values of the module's variables. *)
Definition initial_state (swap : bool) (now : Z) (v : vm_stat) (fs : Z)
    (ts : list task_struct) : state :=
  State swap
    [0; 1; 2; 4; 6; 15] 6
    [3 * 512; 2 * 1024; 3 * 1024; 4 * 1024; 5 * 1024; 6 * 1024]
    [3 * 512; 2 * 1024; 3 * 1024; 4 * 1024; 5 * 1024; 6 * 1024]
    [3 * 512; 2 * 1024; 3 * 1024; 4 * 1024; 5 * 1024; 6 * 1024]
    6
    [3 * 512; 2 * 1024; 4 * 1024; 8 * 1024; 12 * 1024; 16 * 1024] 6
    0 0 512
    now v fs ts [].

(** *** The snapshot (lines 130-148) *)

Definition other_free (st : state) : Z :=
  to_int (global_page_state (vm st) NR_FREE_PAGES).

(** [NR_FILE_PAGES - NR_SHMEM], before the swap credit. *)
Definition other_file_raw (st : state) : Z :=
  to_int (global_page_state (vm st) NR_FILE_PAGES
          - global_page_state (vm st) NR_SHMEM).

Definition lru_file (st : state) : Z :=
  to_int (global_page_state (vm st) NR_ACTIVE_FILE
          + global_page_state (vm st) NR_INACTIVE_FILE).

(** The [CONFIG_SWAP] block.  [si.freeswap] is [unsigned long]: both
    comparisons with it are unsigned. *)
Definition add_fudgeswap (st : state) (file : Z) : Z :=
  if negb (fudgeswap st =? 0) then
    if 0 <? freeswap st then
      if freeswap st <? to_ulong (fudgeswap st)
      then to_int (file + freeswap st)
      else to_int (file + fudgeswap st)
    else file
  else file.

Definition other_file (st : state) : Z :=
  if CONFIG_SWAP st then add_fudgeswap st (other_file_raw st)
  else other_file_raw st.

(** *** The threshold walk (lines 150-167) *)

Definition array_size (st : state) : Z :=
  let a := ARRAY_SIZE in
  let a := if lowmem_adj_size st <? a then lowmem_adj_size st else a in
  if lowmem_minfree_size st <? a then lowmem_minfree_size st else a.

(** The test of the loop body at tier [i]; [lowmem_minfile] is an array
    of [size_t], so [lru_file] is compared as an unsigned value. *)
Definition tier_breached (st : state) (free file lru : Z) (i : nat) : bool :=
  (free <? nth i (lowmem_minfree st) 0)
  && ((file <? nth i (lowmem_minfree st) 0)
      || (negb (lowmem_check_filepages st =? 0)
          && (to_ulong lru <? nth i (lowmem_minfile st) 0))).

(** The [for] loop from index [i], with [n] iterations left; the result
    is [min_adj] after the loop. *)
Fixpoint tier_walk (st : state) (free file lru : Z) (n i : nat) : Z :=
  match n with
  | O => OOM_ADJUST_MAX + 1
  | S n' =>
      if tier_breached st free file lru i
      then nth i (lowmem_adj st) 0
      else tier_walk st free file lru n' (S i)
  end.

Definition find_min_adj (st : state) : Z :=
  tier_walk st (other_free st) (other_file st) (lru_file st)
    (Z.to_nat (array_size st)) 0.

(** *** The scan of the process list (lines 184-224) *)

Record selection : Type := Selection {
  sel_index : nat;      (* position of [selected] in the process list *)
  sel_tasksize : Z;     (* selected_tasksize *)
  sel_oom_adj : Z       (* selected_oom_adj *)
}.

Inductive scan_result : Type :=
| ScanAbort                            (* the [return 0] of line 200 *)
| ScanDone (sel : option selection).   (* the loop ran to its end *)

Definition tasksize_of (rss : Z) : Z := to_int rss.

Fixpoint scan_tasks (now timeout min_adj : Z) (ts : list task_struct)
    (i : nat) (selected : option selection) : scan_result :=
  match ts with
  | [] => ScanDone selected
  | tsk :: rest =>
      if pf_kthread tsk then scan_tasks now timeout min_adj rest (S i) selected
      else
        match mm_rss tsk with
        | None => scan_tasks now timeout min_adj rest (S i) selected
        | Some rss =>
            if tif_memdie tsk && time_before_eq now timeout then ScanAbort
            else if oom_adj tsk <? min_adj
            then scan_tasks now timeout min_adj rest (S i) selected
            else
              let tasksize := tasksize_of rss in
              if tasksize <=? 0
              then scan_tasks now timeout min_adj rest (S i) selected
              else
                let keep :=
                  match selected with
                  | None => false
                  | Some s =>
                      (oom_adj tsk <? sel_oom_adj s)
                      || ((oom_adj tsk =? sel_oom_adj s)
                          && (tasksize <=? sel_tasksize s))
                  end in
                if keep
                then scan_tasks now timeout min_adj rest (S i) selected
                else scan_tasks now timeout min_adj rest (S i)
                       (Some (Selection i tasksize (oom_adj tsk)))
        end
  end.

(** *** [lowmem_shrink] *)

(** The return statement reached, with what it returns; the names are
    those the design gives to the outcomes of an evaluation. *)
Inductive outcome : Type :=
| NoActionNeeded                       (* line 167: no tier breached *)
| CacheCount (rem : Z)                 (* line 180: nr_to_scan <= 0 *)
| DeferredCooldownActive               (* line 200 *)
| Killed (victim : Z) (rem : Z)        (* line 238, a task was selected *)
| NoEligibleVictim.                    (* line 238, rem = -1 *)

Definition return_value (o : outcome) : Z :=
  match o with
  | NoActionNeeded => 0
  | CacheCount rem => rem
  | DeferredCooldownActive => 0
  | Killed _ rem => rem
  | NoEligibleVictim => -1
  end.

Definition lru_pages (st : state) : Z :=
  to_int (global_page_state (vm st) NR_ACTIVE_ANON
          + global_page_state (vm st) NR_ACTIVE_FILE
          + global_page_state (vm st) NR_INACTIVE_ANON
          + global_page_state (vm st) NR_INACTIVE_FILE).

(** [send_sig(SIGKILL, selected, 0); set_tsk_thread_flag(selected,
    TIF_MEMDIE)] on the task at position [i]. *)
Definition kill_selected (st : state) (i : nat) : state :=
  State (CONFIG_SWAP st)
    (lowmem_adj st) (lowmem_adj_size st)
    (lowmem_minfree st) (lowmem_minfree_screen_on st)
    (lowmem_minfree_screen_off st) (lowmem_minfree_size st)
    (lowmem_minfile st) (lowmem_minfile_size st)
    (lowmem_deathpending_timeout st)
    (lowmem_check_filepages st) (fudgeswap st)
    (jiffies st) (vm st) (freeswap st)
    (set_memdie_at i (tasks st))
    (sigkill_sent st ++ [pid (nth i (tasks st) (Task 0 false None false 0))]).

Definition lowmem_shrink (st : state) (nr_to_scan : Z) : outcome * state :=
  let min_adj := find_min_adj st in
  if min_adj =? OOM_ADJUST_MAX + 1 then (NoActionNeeded, st)
  else
    let rem := lru_pages st in
    if nr_to_scan <=? 0 then (CacheCount rem, st)
    else
      match scan_tasks (jiffies st) (lowmem_deathpending_timeout st)
              min_adj (tasks st) 0 None with
      | ScanAbort => (DeferredCooldownActive, st)
      | ScanDone (Some s) =>
          (Killed (pid (nth (sel_index s) (tasks st)
                          (Task 0 false None false 0)))
                  (to_int (rem - sel_tasksize s)),
           kill_selected st (sel_index s))
      | ScanDone None => (NoEligibleVictim, st)
      end.

(** [n] calls in a row, nothing else happening in between: the outcomes
    in order, and the final state. *)
Fixpoint shrink_repeatedly (n : nat) (st : state) (nr_to_scan : Z)
    : list outcome * state :=
  match n with
  | O => ([], st)
  | S n' =>
      let (o, st') := lowmem_shrink st nr_to_scan in
      let (os, st'') := shrink_repeatedly n' st' nr_to_scan in
      (o :: os, st'')
  end.

(** *** The early-suspend handlers (lines 247-256) *)

(** [memcpy] between two [int] arrays, [n] elements. *)
Definition memcpy (dst src : list Z) (n : nat) : list Z :=
  firstn n src ++ skipn n dst.

Definition set_minfree (st : state) (minfree screen_on : list Z) : state :=
  State (CONFIG_SWAP st)
    (lowmem_adj st) (lowmem_adj_size st)
    minfree screen_on
    (lowmem_minfree_screen_off st) (lowmem_minfree_size st)
    (lowmem_minfile st) (lowmem_minfile_size st)
    (lowmem_deathpending_timeout st)
    (lowmem_check_filepages st) (fudgeswap st)
    (jiffies st) (vm st) (freeswap st) (tasks st) (sigkill_sent st).

Definition low_mem_early_suspend (st : state) : state :=
  let screen_on :=
    memcpy (lowmem_minfree_screen_on st) (lowmem_minfree st)
      (Z.to_nat ARRAY_SIZE) in
  let minfree :=
    memcpy (lowmem_minfree st) (lowmem_minfree_screen_off st)
      (Z.to_nat ARRAY_SIZE) in
  set_minfree st minfree screen_on.

Definition low_mem_late_resume (st : state) : state :=
  set_minfree st
    (memcpy (lowmem_minfree st) (lowmem_minfree_screen_on st)
       (Z.to_nat ARRAY_SIZE))
    (lowmem_minfree_screen_on st).

End Lowmem.
Import Lowmem.

(** ** Vocabulary of the statements *)

Module Props.

(** The walk covers the tiers [0 .. tier_count - 1]. *)
Definition tier_count (st : state) : nat := Z.to_nat (array_size st).

Definition tier_adj (st : state) (i : nat) : Z := nth i (lowmem_adj st) 0.
Definition tier_minfree (st : state) (i : nat) : Z := nth i (lowmem_minfree st) 0.
Definition tier_minfile (st : state) (i : nat) : Z := nth i (lowmem_minfile st) 0.



(** [tasksize] of a task, 0 when it has no address space. *)
Definition task_size (t : task_struct) : Z :=
  match mm_rss t with
  | Some rss => tasksize_of rss
  | None => 0
  end.

(** The task passes the filters of the scan for the cutoff [min_adj]. *)
Definition eligible (min_adj : Z) (t : task_struct) : Prop :=
  pf_kthread t = false
  /\ mm_rss t <> None
  /\ min_adj <= oom_adj t
  /\ 0 < task_size t.

(** The task makes the scan give up: it is marked as dying and the
    deadline has not passed. *)
Definition death_pending (now timeout : Z) (t : task_struct) : Prop :=
  pf_kthread t = false
  /\ mm_rss t <> None
  /\ tif_memdie t = true
  /\ time_before_eq now timeout = true.

(** [q] does not rank above [p]: lower priority value, or the same one
    and no more resident memory. *)
Definition ranks_le (q p : task_struct) : Prop :=
  oom_adj q < oom_adj p
  \/ (oom_adj q = oom_adj p /\ task_size q <= task_size p).

(** [q] ranks strictly below [p]. *)
Definition ranks_lt (q p : task_struct) : Prop :=
  oom_adj q < oom_adj p
  \/ (oom_adj q = oom_adj p /\ task_size q < task_size p).

(** The accumulator [sel] of the scan is right for the tasks [seen] so
    far: nothing selected when none of them is eligible; otherwise the
    selected one is eligible, ranks at least as high as every eligible
    task seen, and strictly higher than those seen before it. *)
Definition selection_ok (min_adj : Z) (seen : list task_struct)
    (sel : option selection) : Prop :=
  match sel with
  | None => forall q, In q seen -> ~ eligible min_adj q
  | Some s =>
      exists p,
        nth_error seen (sel_index s) = Some p
        /\ eligible min_adj p
        /\ sel_oom_adj s = oom_adj p
        /\ sel_tasksize s = task_size p
        /\ (forall j q, nth_error seen j = Some q ->
              eligible min_adj q -> ranks_le q p)
        /\ (forall j q, (j < sel_index s)%nat -> nth_error seen j = Some q ->
              eligible min_adj q -> ranks_lt q p)
  end.

(** The three min_free arrays have the six cells of their declaration. *)
Definition minfree_arrays_sized (st : state) : Prop :=
  length (lowmem_minfree st) = Z.to_nat ARRAY_SIZE
  /\ length (lowmem_minfree_screen_on st) = Z.to_nat ARRAY_SIZE
  /\ length (lowmem_minfree_screen_off st) = Z.to_nat ARRAY_SIZE.

(** The time passing between two calls. *)
Definition at_jiffies (st : state) (now : Z) : state :=
  State (CONFIG_SWAP st)
    (lowmem_adj st) (lowmem_adj_size st)
    (lowmem_minfree st) (lowmem_minfree_screen_on st)
    (lowmem_minfree_screen_off st) (lowmem_minfree_size st)
    (lowmem_minfile st) (lowmem_minfile_size st)
    (lowmem_deathpending_timeout st)
    (lowmem_check_filepages st) (fudgeswap st)
    now (vm st) (freeswap st) (tasks st) (sigkill_sent st).

(** The declared lengths of the three tables all set to [n]. *)
Definition with_sizes (st : state) (n : Z) : state :=
  State (CONFIG_SWAP st)
    (lowmem_adj st) n
    (lowmem_minfree st) (lowmem_minfree_screen_on st)
    (lowmem_minfree_screen_off st) n
    (lowmem_minfile st) n
    (lowmem_deathpending_timeout st)
    (lowmem_check_filepages st) (fudgeswap st)
    (jiffies st) (vm st) (freeswap st) (tasks st) (sigkill_sent st).

(** Tier [i] as the triple (cutoff, min_free, min_file) read from the
    three arrays. *)
Definition tier_of (st : state) (i : nat) : Z * Z * Z :=
  (tier_adj st i, tier_minfree st i, tier_minfile st i).

(** The table made of the first [n] tiers of the arrays. *)
Definition prefix_tiers (st : state) (n : nat) : list (Z * Z * Z) :=
  map (tier_of st) (seq 0 n).

(** The test of lines 155-158 on a tier given by its three values. *)
Definition tier_test (check free file lru : Z) (t : Z * Z * Z) : bool :=
  let '(_, min_free, min_file) := t in
  (free <? min_free)
  && ((file <? min_free)
      || (negb (check =? 0) && (to_ulong lru <? min_file))).

(** The evaluation of a table given as the list of its tiers, whatever
    its length: the cutoff of the first tier whose test succeeds, none
    when no tier's does. *)
Fixpoint evaluate_tiers (check free file lru : Z) (tiers : list (Z * Z * Z))
    : option Z :=
  match tiers with
  | [] => None
  | t :: rest =>
      if tier_test check free file lru t
      then Some (fst (fst t))
      else evaluate_tiers check free file lru rest
  end.

(** That evaluation on the snapshot and the toggle of [st]. *)
Definition evaluate_pressure (st : state) (tiers : list (Z * Z * Z))
    : option Z :=
  evaluate_tiers (lowmem_check_filepages st)
    (other_free st) (other_file st) (lru_file st) tiers.

(** None is written [OOM_ADJUST_MAX + 1] by the code. *)
Definition cutoff_or_none (r : option Z) : Z :=
  match r with
  | Some cutoff => cutoff
  | None => OOM_ADJUST_MAX + 1
  end.

(** The number of tiers of the shorter of the cutoff and the min_free
    table, six at most. *)
Definition shorter_length (st : state) : nat :=
  Z.to_nat (Z.min 6 (Z.min (lowmem_adj_size st) (lowmem_minfree_size st))).

(** The contents of the three arrays replaced, all else as it is. *)
Definition with_tables (st : state) (adj minfree minfile : list Z) : state :=
  State (CONFIG_SWAP st)
    adj (lowmem_adj_size st)
    minfree (lowmem_minfree_screen_on st)
    (lowmem_minfree_screen_off st) (lowmem_minfree_size st)
    minfile (lowmem_minfile_size st)
    (lowmem_deathpending_timeout st)
    (lowmem_check_filepages st) (fudgeswap st)
    (jiffies st) (vm st) (freeswap st) (tasks st) (sigkill_sent st).

(** The shortest of the three declared lengths. *)
Definition shortest_prefix (st : state) : Z :=
  Z.min (lowmem_adj_size st)
    (Z.min (lowmem_minfree_size st) (lowmem_minfile_size st)).

(** The walk as it would be if negative counters were clamped to zero:
    the free pages, the file pages before the swap credit, the
    effective file pages and the LRU file pages. *)
Definition clamp0 (z : Z) : Z := Z.max 0 z.

Definition other_file_clamped (st : state) : Z :=
  clamp0 (if CONFIG_SWAP st
          then add_fudgeswap st (clamp0 (other_file_raw st))
          else clamp0 (other_file_raw st)).

Definition find_min_adj_clamped (st : state) : Z :=
  tier_walk st (clamp0 (other_free st)) (other_file_clamped st)
    (clamp0 (lru_file st)) (tier_count st) 0.

(** The cutoffs of the tiers walked are in ascending order, as the
    header of the file asks, and none is above [OOM_ADJUST_MAX + 1]. *)
Definition cutoffs_ascending (st : state) : Prop :=
  (forall j k : nat,
      (j <= k)%nat -> (k < tier_count st)%nat ->
      tier_adj st j <= tier_adj st k)
  /\ (forall i : nat,
        (i < tier_count st)%nat -> tier_adj st i <= OOM_ADJUST_MAX + 1).

(** Two states with the same threshold tables, declared lengths of the
    cutoff and min_free tables, and file-page toggle. *)
Definition same_tables (st st' : state) : Prop :=
  lowmem_adj st' = lowmem_adj st
  /\ lowmem_adj_size st' = lowmem_adj_size st
  /\ lowmem_minfree st' = lowmem_minfree st
  /\ lowmem_minfree_size st' = lowmem_minfree_size st
  /\ lowmem_minfile st' = lowmem_minfile st
  /\ lowmem_check_filepages st' = lowmem_check_filepages st.

(** [st'] differs from [st] in the process list and the signals sent at
    most: the module's variables, the clock, the counters and the free
    swap are the same. *)
Definition only_tasks_and_signals_differ (st st' : state) : Prop :=
  st' = State (CONFIG_SWAP st)
          (lowmem_adj st) (lowmem_adj_size st)
          (lowmem_minfree st) (lowmem_minfree_screen_on st)
          (lowmem_minfree_screen_off st) (lowmem_minfree_size st)
          (lowmem_minfile st) (lowmem_minfile_size st)
          (lowmem_deathpending_timeout st)
          (lowmem_check_filepages st) (fudgeswap st)
          (jiffies st) (vm st) (freeswap st)
          (tasks st') (sigkill_sent st').

(** [st'] differs from [st] in the active and the saved min_free tables
    at most. *)
Definition only_minfree_tables_differ (st st' : state) : Prop :=
  st' = set_minfree st (lowmem_minfree st') (lowmem_minfree_screen_on st').

(** No task of the process list makes the scan give up. *)
Definition no_task_dying (st : state) : Prop :=
  forall t, In t (tasks st) ->
    ~ death_pending (jiffies st) (lowmem_deathpending_timeout st) t.

(** The task cannot pass the filters of the scan, whatever tier is
    breached: a kernel thread, a task without an address space or without
    resident pages, or one whose priority value is below every cutoff of
    the tiers walked. *)
Definition out_of_reach (st : state) (p : task_struct) : Prop :=
  pf_kthread p = true
  \/ mm_rss p = None
  \/ task_size p <= 0
  \/ (forall i : nat, (i < tier_count st)%nat -> oom_adj p < tier_adj st i).

(** The file-page toggle set to [c]. *)
Definition with_check (st : state) (c : Z) : state :=
  State (CONFIG_SWAP st)
    (lowmem_adj st) (lowmem_adj_size st)
    (lowmem_minfree st) (lowmem_minfree_screen_on st)
    (lowmem_minfree_screen_off st) (lowmem_minfree_size st)
    (lowmem_minfile st) (lowmem_minfile_size st)
    (lowmem_deathpending_timeout st)
    c (fudgeswap st)
    (jiffies st) (vm st) (freeswap st) (tasks st) (sigkill_sent st).

(** The free swap read as [fs]. *)
Definition with_freeswap (st : state) (fs : Z) : state :=
  State (CONFIG_SWAP st)
    (lowmem_adj st) (lowmem_adj_size st)
    (lowmem_minfree st) (lowmem_minfree_screen_on st)
    (lowmem_minfree_screen_off st) (lowmem_minfree_size st)
    (lowmem_minfile st) (lowmem_minfile_size st)
    (lowmem_deathpending_timeout st)
    (lowmem_check_filepages st) (fudgeswap st)
    (jiffies st) (vm st) fs (tasks st) (sigkill_sent st).

(** [t'] is the task [t], with its TIF_MEMDIE flag set or as it was. *)
Definition same_task_flag_kept (t t' : task_struct) : Prop :=
  pid t' = pid t
  /\ pf_kthread t' = pf_kthread t
  /\ mm_rss t' = mm_rss t
  /\ oom_adj t' = oom_adj t
  /\ (tif_memdie t = true -> tif_memdie t' = true).

(** The process list [ts'] is the list [ts], entry by entry, with some
    TIF_MEMDIE flags set. *)
Definition tasks_only_flagged (ts ts' : list task_struct) : Prop :=
  Forall2 same_task_flag_kept ts ts'.

(** The pid signalled by a call with the outcome [o], if any. *)
Definition killed_pid (o : outcome) : list Z :=
  match o with
  | Killed victim _ => [victim]
  | _ => []
  end.

End Props.
Import Props.

(** ** Concrete states *)

Module Scenario.

Definition minfree_default : list Z := [1536; 2048; 3072; 4096; 5120; 6144].
Definition minfile_default : list Z := [1536; 2048; 4096; 8192; 12288; 16384].

(** Two tiers (0, 768, 1536) and (8, 4096, 8192); 2000 pages free, 5000
    file pages, 10000 LRU file pages. *)
Definition two_tiers (check : Z) (ts : list task_struct) : state :=
  State true
    [0; 8; 2; 4; 6; 15] 2
    [768; 4096; 3072; 4096; 5120; 6144] minfree_default minfree_default 2
    [1536; 8192; 4096; 8192; 12288; 16384] 2
    0 check 512
    1000 (VmStat 2000 5000 0 0 0 6000 4000) 0 ts [].

(** Heavy pressure, two processes of the lowest importance. *)
Definition two_victims : state :=
  initial_state true 1000 (VmStat 100 100 0 3000 2000 50 50) 0
    [Task 101 false (Some 500) false 15; Task 102 false (Some 400) false 15].

(** [minfile] written with one value only, the file-page check on. *)
Definition short_minfile : state :=
  State true
    [0; 1; 2; 4; 6; 15] 6
    minfree_default minfree_default minfree_default 6
    [100; 2048; 4096; 8192; 12288; 16384] 1
    0 1 512
    1000 (VmStat 100 100000 0 0 0 3000 0) 0
    [Task 201 false (Some 700) false 2] [].

(** [minfile] written with one value only, the file-page check off. *)
Definition short_minfile_unchecked : state :=
  State true
    [0; 1; 2; 4; 6; 15] 6
    minfree_default minfree_default minfree_default 6
    [100; 2048; 4096; 8192; 12288; 16384] 1
    0 0 512
    1000 (VmStat 100 1600 0 0 0 3000 0) 0
    [Task 201 false (Some 700) false 2] [].

(** More shared-memory pages than file pages read, and free swap. *)
Definition shmem_above_file : state :=
  State true
    [0; 1; 2; 4; 6; 15] 6
    minfree_default minfree_default minfree_default 6
    minfile_default 6
    0 0 2048
    1000 (VmStat 100 100 1100 0 0 0 0) 5000 [] [].

(** An LRU file counter read as -1, the file-page check on. *)
Definition negative_lru : state :=
  State true
    [0; 1; 2; 4; 6; 15] 6
    minfree_default minfree_default minfree_default 6
    minfile_default 6
    0 1 512
    1000 (VmStat 100 5000 0 0 0 (2 ^ 32 - 1) 0) 0 [] [].

(** More shared-memory pages than file pages read, no swap. *)
Definition negative_file : state :=
  initial_state true 1000 (VmStat 100 100 300 0 0 0 0) 0 [].

(** Plenty of free memory. *)
Definition no_pressure : state :=
  initial_state true 1000 (VmStat 8000 100 0 0 0 50 50) 0
    [Task 101 false (Some 500) false 15].

(** Pressure, and nothing that may be killed. *)
Definition nobody_eligible : state :=
  initial_state true 1000 (VmStat 100 100 0 0 0 50 50) 0
    [Task 2 true None false 0; Task 77 false (Some 900) false (-17);
     Task 78 false (Some 0) false 15].

(** A kernel thread, a process below the cutoff 6, and four candidates;
    the third and the fourth tie on priority and size. *)
Definition tie_candidates : list task_struct :=
  [Task 2 true None false 0;
   Task 50 false (Some 900) false 4;
   Task 61 false (Some 300) false 15;
   Task 62 false (Some 500) false 15;
   Task 63 false (Some 500) false 15;
   Task 64 false (Some 800) false 6].

(** 300 pages of free swap against the budget of 512. *)
Definition some_swap : state :=
  initial_state true 1000 (VmStat 100 4000 1000 0 0 50 50) 300 [].

(** A screen-off table that differs from the active one. *)
Definition screen_off_profile : state :=
  State true
    [0; 1; 2; 4; 6; 15] 6
    minfree_default [1; 2; 3; 4; 5; 6] [1024; 1536; 2048; 2560; 3072; 4096] 6
    minfile_default 6
    0 0 512
    1000 (VmStat 100 100 0 0 0 50 50) 0 [] [].

(** A victim flagged as dying, and the deadline 100 ticks ahead. *)
Definition cooldown_ahead : state :=
  State true
    [0; 1; 2; 4; 6; 15] 6
    minfree_default minfree_default minfree_default 6
    minfile_default 6
    1100 0 512
    1000 (VmStat 100 100 0 3000 2000 50 50) 0
    [Task 102 false (Some 400) false 15; Task 101 false (Some 500) true 15]
    [101].

(** Some pressure: free and file pages between the third and the fourth
    tier. *)
Definition mild_pressure : state :=
  initial_state true 1000 (VmStat 3500 3200 0 3000 2000 2000 1500) 0
    [Task 101 false (Some 500) false 15; Task 102 false (Some 400) false 15].

(** The example of the file's header: "0,8" written to adj and
    "1024,4096" to minfree; 2000 pages free, 3000 file pages. *)
Definition header_example : state :=
  State true
    [0; 8; 2; 4; 6; 15] 2
    [1024; 4096; 3072; 4096; 5120; 6144] minfree_default minfree_default 2
    minfile_default 6
    0 0 512
    1000 (VmStat 2000 3000 0 0 0 6000 4000) 0
    [Task 101 false (Some 500) false 9] [].

(** No cutoff written: a declared length of 0. *)
Definition empty_table : state :=
  State true
    [0; 1; 2; 4; 6; 15] 0
    minfree_default minfree_default minfree_default 6
    minfile_default 6
    0 0 512
    1000 (VmStat 100 100 0 0 0 50 50) 0
    [Task 101 false (Some 500) false 15] [].

(** A first tier with the cutoff 16. *)
Definition sentinel_cutoff : state :=
  State true
    [16; 1; 2; 4; 6; 15] 6
    minfree_default minfree_default minfree_default 6
    minfile_default 6
    0 0 512
    1000 (VmStat 100 100 0 0 0 50 50) 0
    [Task 101 false (Some 500) false 15] [].

(** [tie_candidates] as the process list, under heavy pressure. *)
Definition many_candidates : state :=
  initial_state true 1000 (VmStat 100 100 0 3000 2000 50 50) 0 tie_candidates.

(** [tie_candidates] enumerated in another order. *)
Definition tie_candidates_shuffled : list task_struct :=
  [Task 63 false (Some 500) false 15;
   Task 64 false (Some 800) false 6;
   Task 2 true None false 0;
   Task 62 false (Some 500) false 15;
   Task 50 false (Some 900) false 4;
   Task 61 false (Some 300) false 15].

(** The LRU file pages below the file minimum of the first tier, plenty of
    file pages otherwise. *)
Definition pinned_cache : state :=
  initial_state true 1000 (VmStat 100 9000 0 3000 2000 500 500) 0
    [Task 101 false (Some 500) false 15].

(** 5000 pages of free swap and a budget of 512, few file pages. *)
Definition swap_relief : state :=
  initial_state true 1000 (VmStat 100 1200 0 3000 2000 50 50) 5000
    [Task 101 false (Some 500) false 15].

(** A screen-off table above the active one on every tier. *)
Definition eager_screen_off : state :=
  State true
    [0; 1; 2; 4; 6; 15] 6
    minfree_default minfree_default [2048; 3072; 4096; 5120; 6144; 8192] 6
    minfile_default 6
    0 0 512
    1000 (VmStat 1800 1900 0 3000 2000 50 50) 0
    [Task 101 false (Some 500) false 15] [].

(** Six cutoffs and four min_free values; the free and the file pages
    are below the min_free of the fifth cell only. *)
Definition six_and_four : state :=
  State true
    [0; 1; 2; 4; 6; 15] 6
    minfree_default minfree_default minfree_default 4
    minfile_default 6
    0 0 512
    1000 (VmStat 4500 4500 0 3000 2000 50 50) 0
    [Task 101 false (Some 500) false 15] [].

(** The same table, with the free and the file pages below the min_free
    of the fourth cell. *)
Definition six_and_four_breached : state :=
  State true
    [0; 1; 2; 4; 6; 15] 6
    minfree_default minfree_default minfree_default 4
    minfile_default 6
    0 0 512
    1000 (VmStat 3500 3500 0 3000 2000 50 50) 0
    [Task 101 false (Some 500) false 15] [].

End Scenario.

(** * Properties *)

(** ** The integer conversions *)

Section Conversions.

Ltac unfold_cint :=
  unfold to_int, to_ulong, is_int, is_ulong, INT_MIN, INT_MAX, ULONG_MAX in *;
  change (2 ^ 32) with 4294967296 in *;
  change (2 ^ 31) with 2147483648 in *.

Lemma to_int_range (z : Z) : is_int (to_int z).
Proof.
  unfold_cint.
  pose proof (Z.mod_pos_bound (z + 2147483648) 4294967296). lia.
Qed.

Lemma to_int_id (z : Z) : is_int z -> to_int z = z.
Proof.
  unfold_cint. intros Hz.
  rewrite Z.mod_small by lia. lia.
Qed.

Lemma to_int_idem (z : Z) : to_int (to_int z) = to_int z.
Proof. apply to_int_id, to_int_range. Qed.

Lemma to_ulong_id (z : Z) : is_ulong z -> to_ulong z = z.
Proof.
  unfold_cint. intros Hz. apply Z.mod_small. lia.
Qed.

Lemma to_ulong_of_nonneg_int (z : Z) : is_int z -> 0 <= z -> to_ulong z = z.
Proof.
  intros Hz Hpos. apply to_ulong_id. unfold_cint. lia.
Qed.

(** An [int] sum does not see whether a term was read as unsigned. *)
Lemma to_int_add_to_ulong (a b : Z) : to_int (a + to_ulong b) = to_int (a + b).
Proof.
  unfold_cint. f_equal.
  replace (a + b mod 4294967296 + 2147483648)
    with (a + 2147483648 + b mod 4294967296) by lia.
  rewrite Z.add_mod_idemp_r by lia.
  f_equal. lia.
Qed.

End Conversions.

(** ** The threshold walk *)

Section Walk.

Variable st : state.
Variables free file lru : Z.

Let breached (i : nat) : bool := tier_breached st free file lru i.
Let walk (n i : nat) : Z := tier_walk st free file lru n i.

(** The loop stops at the first index whose test succeeds, and leaves
    [OOM_ADJUST_MAX + 1] when there is none. *)
Lemma tier_walk_cases (n i : nat) :
  (exists k : nat,
      (k < n)%nat
      /\ breached (i + k) = true
      /\ (forall j : nat, (j < k)%nat -> breached (i + j) = false)
      /\ walk n i = nth (i + k) (lowmem_adj st) 0)
  \/ ((forall j : nat, (j < n)%nat -> breached (i + j) = false)
      /\ walk n i = OOM_ADJUST_MAX + 1).
Proof.
  subst breached walk. revert i.
  induction n as [|n' IH]; intros i; simpl.
  - right. split; [intros j Hj; lia | reflexivity].
  - destruct (tier_breached st free file lru i) eqn:Hi.
    + left. exists 0%nat. rewrite Nat.add_0_r.
      repeat split; [lia | assumption | intros j Hj; lia].
    + destruct (IH (S i)) as [[k [Hk [Hb [Hbefore Hres]]]] | [Hnone Hres]].
      * left. exists (S k).
        replace (i + S k)%nat with (S i + k)%nat by lia.
        repeat split; [lia | assumption | | assumption].
        intros j Hj. destruct j as [|j'].
        -- rewrite Nat.add_0_r. assumption.
        -- replace (i + S j')%nat with (S i + j')%nat by lia.
           apply Hbefore. lia.
      * right. split; [| assumption].
        intros j Hj. destruct j as [|j'].
        -- rewrite Nat.add_0_r. assumption.
        -- replace (i + S j')%nat with (S i + j')%nat by lia.
           apply Hnone. lia.
Qed.

(** Two walks agree when their tests agree on the indices visited. *)
Lemma tier_walk_ext (free' file' lru' : Z) (n i : nat) :
  (forall j : nat, (j < n)%nat ->
      tier_breached st free' file' lru' (i + j) = breached (i + j)) ->
  tier_walk st free' file' lru' n i = walk n i.
Proof.
  subst breached walk. revert i.
  induction n as [|n' IH]; intros i Hsame; simpl; [reflexivity|].
  pose proof (Hsame 0%nat ltac:(lia)) as H0.
  rewrite Nat.add_0_r in H0. rewrite H0.
  destruct (tier_breached st free file lru i); [reflexivity|].
  apply IH. intros j Hj.
  replace (S i + j)%nat with (i + S j)%nat by lia.
  apply Hsame. lia.
Qed.

End Walk.


(** The number of tiers walked is the smallest of 6 and the two declared
    lengths the loop bound looks at. *)
Lemma array_size_min (st : state) :
  array_size st
  = Z.min ARRAY_SIZE (Z.min (lowmem_adj_size st) (lowmem_minfree_size st)).
Proof.
  unfold array_size, ARRAY_SIZE.
  destruct (lowmem_adj_size st <? 6) eqn:Ha.
  - apply Z.ltb_lt in Ha.
    destruct (lowmem_minfree_size st <? lowmem_adj_size st) eqn:Hm;
      [apply Z.ltb_lt in Hm | apply Z.ltb_ge in Hm]; lia.
  - apply Z.ltb_ge in Ha.
    destruct (lowmem_minfree_size st <? 6) eqn:Hm;
      [apply Z.ltb_lt in Hm | apply Z.ltb_ge in Hm]; lia.
Qed.



(** ** The early return *)

(** When the walk leaves [OOM_ADJUST_MAX + 1], [lowmem_shrink] returns 0
    at once and touches nothing. *)
Lemma lowmem_shrink_no_tier (st : state) (nr_to_scan : Z) :
  find_min_adj st = OOM_ADJUST_MAX + 1 ->
  lowmem_shrink st nr_to_scan = (NoActionNeeded, st).
Proof.
  intros Hnone. unfold lowmem_shrink. rewrite Hnone.
  rewrite Z.eqb_refl. reflexivity.
Qed.

Lemma shrink_repeatedly_no_tier (st : state) (nr_to_scan : Z) (n : nat) :
  find_min_adj st = OOM_ADJUST_MAX + 1 ->
  shrink_repeatedly n st nr_to_scan = (repeat NoActionNeeded n, st).
Proof.
  intros Hnone. induction n as [|n' IH]; simpl; [reflexivity|].
  rewrite (lowmem_shrink_no_tier st nr_to_scan Hnone), IH. reflexivity.
Qed.

(** No tier can be breached while the free pages reach its min_free. *)
Lemma tier_breached_needs_low_free (st : state) (free file lru : Z) (i : nat) :
  tier_minfree st i <= free ->
  tier_breached st free file lru i = false.
Proof.
  unfold tier_breached, tier_minfree. intros Hfree.
  apply andb_false_intro1. apply Z.ltb_ge. exact Hfree.
Qed.

(** C8.  When the free pages reach the min_free of every tier walked, the
    walk returns none, every call returns at the first [return 0] without
    changing anything in the state (the deadline, the process flags, the
    signals sent), and so does any number of calls in a row. *)
Theorem no_pressure_is_a_no_op (st : state) :
  (forall i : nat, (i < tier_count st)%nat -> tier_minfree st i <= other_free st) ->
  find_min_adj st = OOM_ADJUST_MAX + 1
  /\ (forall nr_to_scan : Z, lowmem_shrink st nr_to_scan = (NoActionNeeded, st))
  /\ (forall (n : nat) (nr_to_scan : Z),
        shrink_repeatedly n st nr_to_scan = (repeat NoActionNeeded n, st)).
Proof.
  intros Hfree.
  assert (Hnone : find_min_adj st = OOM_ADJUST_MAX + 1).
  { unfold find_min_adj.
    destruct (tier_walk_cases st (other_free st) (other_file st) (lru_file st)
                (Z.to_nat (array_size st)) 0)
      as [[k [Hk [Hb _]]] | [_ Hres]]; simpl in *.
    - rewrite tier_breached_needs_low_free in Hb; [discriminate|].
      apply Hfree. exact Hk.
    - exact Hres. }
  split; [exact Hnone | split].
  - intros nr. apply lowmem_shrink_no_tier. exact Hnone.
  - intros n nr. apply shrink_repeatedly_no_tier. exact Hnone.
Qed.

Lemma no_pressure_is_a_no_op_witness :
  find_min_adj Scenario.no_pressure = OOM_ADJUST_MAX + 1
  /\ (forall nr_to_scan : Z,
        lowmem_shrink Scenario.no_pressure nr_to_scan
        = (NoActionNeeded, Scenario.no_pressure))
  /\ (forall (n : nat) (nr_to_scan : Z),
        shrink_repeatedly n Scenario.no_pressure nr_to_scan
        = (repeat NoActionNeeded n, Scenario.no_pressure)).
Proof.
  apply (no_pressure_is_a_no_op Scenario.no_pressure).
  intros i Hi.
  change (tier_count Scenario.no_pressure) with 6%nat in Hi.
  do 6 (destruct i as [|i]; [vm_compute; discriminate |]).
  lia.
Defined.

(** ** The two-tier scenario *)

(** C2, as the code has it.  With the tiers (0, 768, 1536) and
    (8, 4096, 8192), 2000 free pages, 5000 effective file pages and 10000
    LRU file pages, no tier is breached: tier 0 fails on the free pages,
    and tier 1 has neither its file pages below min_free (5000 >= 4096)
    nor its LRU file pages below min_file (10000 >= 8192).  The walk
    returns none and [lowmem_shrink] returns at once, whether the
    file-page check is enabled or not. *)
Theorem two_tier_scenario_breaches_nothing (st : state) :
  lowmem_adj_size st = 2 ->
  lowmem_minfree_size st = 2 ->
  (tier_adj st 0, tier_minfree st 0, tier_minfile st 0) = (0, 768, 1536) ->
  (tier_adj st 1, tier_minfree st 1, tier_minfile st 1) = (8, 4096, 8192) ->
  other_free st = 2000 ->
  other_file st = 5000 ->
  lru_file st = 10000 ->
  find_min_adj st = OOM_ADJUST_MAX + 1
  /\ (forall nr_to_scan : Z, lowmem_shrink st nr_to_scan = (NoActionNeeded, st)).
Proof.
  intros Hadj Hmin Ht0 Ht1 Hfree Hfile Hlru.
  unfold tier_adj, tier_minfree, tier_minfile in Ht0, Ht1.
  injection Ht0 as Ha0 Hf0 Hl0. injection Ht1 as Ha1 Hf1 Hl1.
  assert (Hnone : find_min_adj st = OOM_ADJUST_MAX + 1).
  { unfold find_min_adj, array_size, ARRAY_SIZE.
    rewrite Hadj, Hmin, Hfree, Hfile, Hlru. simpl.
    unfold tier_breached. rewrite Hf0, Hf1, Hl1.
    destruct (negb (lowmem_check_filepages st =? 0)); reflexivity. }
  split; [exact Hnone |].
  intros nr. apply lowmem_shrink_no_tier. exact Hnone.
Qed.

Lemma two_tier_scenario_breaches_nothing_witness :
  find_min_adj (Scenario.two_tiers 1 []) = OOM_ADJUST_MAX + 1
  /\ (forall nr_to_scan : Z,
        lowmem_shrink (Scenario.two_tiers 1 []) nr_to_scan
        = (NoActionNeeded, Scenario.two_tiers 1 [])).
Proof.
  apply (two_tier_scenario_breaches_nothing (Scenario.two_tiers 1 []));
    reflexivity.
Defined.

(** C2, as stated, fails: on the scenario the cutoff is not 8, with the
    file-page check enabled or disabled. *)
Lemma two_tier_scenario_cutoff_is_not_8 :
  other_free (Scenario.two_tiers 1 []) = 2000
  /\ other_file (Scenario.two_tiers 1 []) = 5000
  /\ lru_file (Scenario.two_tiers 1 []) = 10000
  /\ find_min_adj (Scenario.two_tiers 1 []) <> 8
  /\ find_min_adj (Scenario.two_tiers 0 []) <> 8.
Proof.
  repeat split; vm_compute; discriminate.
Qed.

(** ** The swap credit *)

(** Whatever the sign of [fudgeswap], the credit is the smaller of the
    free swap and the budget read as an unsigned value: a negative
    [fudgeswap] is a budget above any free swap that fits an [int]. *)
Lemma swap_credit_unsigned_budget (st : state) :
  CONFIG_SWAP st = true ->
  is_ulong (freeswap st) ->
  other_file st
  = to_int (other_file_raw st
            + Z.min (freeswap st) (to_ulong (fudgeswap st))).
Proof.
  intros Hswap Hfs. unfold is_ulong in Hfs.
  assert (Hraw : to_int (other_file_raw st + 0) = other_file_raw st).
  { rewrite Z.add_0_r. unfold other_file_raw. apply to_int_idem. }
  assert (Hu : 0 <= to_ulong (fudgeswap st)).
  { unfold to_ulong. apply Z.mod_pos_bound. reflexivity. }
  unfold other_file, add_fudgeswap. rewrite Hswap.
  destruct (fudgeswap st =? 0) eqn:Hf0; simpl.
  - apply Z.eqb_eq in Hf0. rewrite Hf0.
    change (to_ulong 0) with 0. rewrite Z.min_r by lia.
    symmetry. exact Hraw.
  - destruct (0 <? freeswap st) eqn:Hfs0.
    + destruct (freeswap st <? to_ulong (fudgeswap st)) eqn:Hlt.
      * apply Z.ltb_lt in Hlt. rewrite Z.min_l by lia. reflexivity.
      * apply Z.ltb_ge in Hlt. rewrite Z.min_r by lia.
        symmetry. apply to_int_add_to_ulong.
    + apply Z.ltb_ge in Hfs0.
      replace (freeswap st) with 0 by lia.
      rewrite Z.min_l by lia. symmetry. exact Hraw.
Qed.

(** C7.  With swap accounting built in, a fudge budget that is not
    negative and the free swap an [unsigned long], the effective file
    pages are the raw file pages plus the smaller of the free swap and the
    budget (as an [int]; exactly that sum when it fits an [int]).  The
    budget is credited in full when the free swap exceeds it, the free
    swap when it does not, and nothing when either is zero. *)
Theorem swap_credit_is_min (st : state) :
  CONFIG_SWAP st = true ->
  0 <= fudgeswap st <= INT_MAX ->
  is_ulong (freeswap st) ->
  other_file st
    = to_int (other_file_raw st + Z.min (freeswap st) (fudgeswap st))
  /\ (fudgeswap st < freeswap st ->
        other_file st = to_int (other_file_raw st + fudgeswap st))
  /\ (freeswap st <= fudgeswap st ->
        other_file st = to_int (other_file_raw st + freeswap st))
  /\ (freeswap st = 0 \/ fudgeswap st = 0 ->
        other_file st = other_file_raw st)
  /\ (is_int (other_file_raw st + Z.min (freeswap st) (fudgeswap st)) ->
        other_file st
          = other_file_raw st + Z.min (freeswap st) (fudgeswap st)).
Proof.
  intros Hswap Hfudge Hfs.
  assert (Hraw : to_int (other_file_raw st + 0) = other_file_raw st).
  { rewrite Z.add_0_r. unfold other_file_raw. apply to_int_idem. }
  assert (Hu : to_ulong (fudgeswap st) = fudgeswap st).
  { apply to_ulong_id. unfold is_ulong, ULONG_MAX, INT_MAX in *. lia. }
  assert (Hmain : other_file st
            = to_int (other_file_raw st + Z.min (freeswap st) (fudgeswap st))).
  { rewrite (swap_credit_unsigned_budget st Hswap Hfs), Hu. reflexivity. }
  unfold is_ulong in Hfs.
  split; [exact Hmain | split; [| split; [| split]]].
  - intros Hlt. rewrite Hmain, Z.min_r by lia. reflexivity.
  - intros Hle. rewrite Hmain, Z.min_l by lia. reflexivity.
  - intros [H0 | H0]; rewrite Hmain, H0.
    + rewrite Z.min_l by lia. exact Hraw.
    + rewrite Z.min_r by lia. exact Hraw.
  - intros Hfit. rewrite Hmain. apply to_int_id. exact Hfit.
Qed.

Lemma swap_credit_is_min_witness :
  other_file Scenario.some_swap
    = to_int (other_file_raw Scenario.some_swap
              + Z.min (freeswap Scenario.some_swap)
                      (fudgeswap Scenario.some_swap))
  /\ (fudgeswap Scenario.some_swap < freeswap Scenario.some_swap ->
        other_file Scenario.some_swap
        = to_int (other_file_raw Scenario.some_swap
                  + fudgeswap Scenario.some_swap))
  /\ (freeswap Scenario.some_swap <= fudgeswap Scenario.some_swap ->
        other_file Scenario.some_swap
        = to_int (other_file_raw Scenario.some_swap
                  + freeswap Scenario.some_swap))
  /\ (freeswap Scenario.some_swap = 0 \/ fudgeswap Scenario.some_swap = 0 ->
        other_file Scenario.some_swap = other_file_raw Scenario.some_swap)
  /\ (is_int (other_file_raw Scenario.some_swap
              + Z.min (freeswap Scenario.some_swap)
                      (fudgeswap Scenario.some_swap)) ->
        other_file Scenario.some_swap
        = other_file_raw Scenario.some_swap
          + Z.min (freeswap Scenario.some_swap)
                  (fudgeswap Scenario.some_swap)).
Proof.
  apply (swap_credit_is_min Scenario.some_swap).
  - reflexivity.
  - vm_compute. split; discriminate.
  - vm_compute. split; discriminate.
Defined.

(** ** Negative counters *)

(** C6, as stated, fails.  With more shared-memory pages than file pages
    read (a difference of -1000) and 2048 pages of swap credit, the code
    compares 1048 and stops at tier 0, where a difference clamped to zero
    would have given 2048 and tier 2.  With an LRU file counter read as
    -1 the code compares it as a large unsigned value and stops at tier 4,
    where zero would have breached tier 0. *)
Lemma negative_counters_are_not_clamped :
  (other_file_raw Scenario.shmem_above_file = -1000
   /\ other_file Scenario.shmem_above_file = 1048
   /\ find_min_adj Scenario.shmem_above_file = 0
   /\ find_min_adj_clamped Scenario.shmem_above_file = 2
   /\ find_min_adj Scenario.shmem_above_file
      <> find_min_adj_clamped Scenario.shmem_above_file)
  /\ (lru_file Scenario.negative_lru = -1
      /\ find_min_adj Scenario.negative_lru = 6
      /\ find_min_adj_clamped Scenario.negative_lru = 0
      /\ find_min_adj Scenario.negative_lru
         <> find_min_adj_clamped Scenario.negative_lru).
Proof.
  repeat split; vm_compute; try reflexivity; discriminate.
Qed.

(** C6, as the code has it.  Nothing is clamped, yet as long as the free
    pages are not negative the walk gives the result it would give with
    the effective file pages (the difference of the file and shared-memory
    counters plus the swap credit) clamped to zero: a negative value is
    below every min_free that the free pages are below. *)
Theorem negative_file_pages_compare_as_zero (st : state) :
  0 <= other_free st ->
  find_min_adj st
  = tier_walk st (other_free st) (clamp0 (other_file st)) (lru_file st)
      (tier_count st) 0.
Proof.
  intros Hfree. unfold find_min_adj, tier_count.
  symmetry. apply tier_walk_ext. intros j _. simpl.
  unfold tier_breached, clamp0.
  destruct (other_free st <? nth j (lowmem_minfree st) 0) eqn:Hlow;
    [| reflexivity].
  apply Z.ltb_lt in Hlow. simpl.
  destruct (other_file st <? nth j (lowmem_minfree st) 0) eqn:Hfile.
  - apply Z.ltb_lt in Hfile.
    replace (Z.max 0 (other_file st) <? nth j (lowmem_minfree st) 0)
      with true by (symmetry; apply Z.ltb_lt; lia).
    reflexivity.
  - apply Z.ltb_ge in Hfile.
    replace (Z.max 0 (other_file st) <? nth j (lowmem_minfree st) 0)
      with false by (symmetry; apply Z.ltb_ge; lia).
    reflexivity.
Qed.

Lemma negative_file_pages_compare_as_zero_witness :
  other_file Scenario.negative_file = -200
  /\ find_min_adj Scenario.negative_file
     = tier_walk Scenario.negative_file
         (other_free Scenario.negative_file)
         (clamp0 (other_file Scenario.negative_file))
         (lru_file Scenario.negative_file)
         (tier_count Scenario.negative_file) 0.
Proof.
  split; [reflexivity |].
  apply (negative_file_pages_compare_as_zero Scenario.negative_file).
  vm_compute. discriminate.
Defined.

(** ** Mismatched table lengths *)

(** The walk reads the state through the three tables and the file-page
    toggle only. *)
Lemma tier_walk_same_table (st st' : state) (free file lru : Z) (n i : nat) :
  lowmem_adj st' = lowmem_adj st ->
  lowmem_minfree st' = lowmem_minfree st ->
  lowmem_minfile st' = lowmem_minfile st ->
  lowmem_check_filepages st' = lowmem_check_filepages st ->
  tier_walk st' free file lru n i = tier_walk st free file lru n i.
Proof.
  intros Hadj Hmin Hfile Hcheck. revert i.
  induction n as [|n' IH]; intros i; simpl; [reflexivity|].
  unfold tier_breached. rewrite Hadj, Hmin, Hfile, Hcheck, IH. reflexivity.
Qed.

(** C5, as stated, fails.  With six cutoffs, six min_free values and a
    [minfile] table written with one value the shortest declared length
    is 1, yet the walk covers six tiers.  With the file-page check off it
    returns the cutoff of tier 1 and a process is killed, where the first
    tier alone is not breached; with the check on it reads the stale
    [lowmem_minfile[2]] and returns the cutoff of tier 2. *)
Lemma minfile_length_is_not_consulted :
  (shortest_prefix Scenario.short_minfile_unchecked = 1
   /\ tier_count Scenario.short_minfile_unchecked = 6%nat
   /\ find_min_adj Scenario.short_minfile_unchecked = 1
   /\ fst (lowmem_shrink Scenario.short_minfile_unchecked 1) = Killed 201 2300
   /\ find_min_adj (with_sizes Scenario.short_minfile_unchecked 1)
      = OOM_ADJUST_MAX + 1
   /\ fst (lowmem_shrink (with_sizes Scenario.short_minfile_unchecked 1) 1)
      = NoActionNeeded)
  /\ (shortest_prefix Scenario.short_minfile = 1
      /\ tier_count Scenario.short_minfile = 6%nat
      /\ find_min_adj Scenario.short_minfile = 2
      /\ fst (lowmem_shrink Scenario.short_minfile 1) = Killed 201 2300
      /\ find_min_adj (with_sizes Scenario.short_minfile 1) = OOM_ADJUST_MAX + 1
      /\ fst (lowmem_shrink (with_sizes Scenario.short_minfile 1) 1)
         = NoActionNeeded).
Proof.
  repeat split; vm_compute; reflexivity.
Qed.

(** The loop over the cells [i .. i + n - 1] is the evaluation of the
    table made of those tiers. *)
Lemma tier_walk_as_tier_list (st : state) (free file lru : Z) (n i : nat) :
  tier_walk st free file lru n i
  = cutoff_or_none
      (evaluate_tiers (lowmem_check_filepages st) free file lru
         (map (tier_of st) (seq i n))).
Proof.
  revert i. induction n as [|n' IH]; intros i; [reflexivity|].
  cbn [tier_walk seq map evaluate_tiers].
  change (tier_test (lowmem_check_filepages st) free file lru (tier_of st i))
    with (tier_breached st free file lru i).
  destruct (tier_breached st free file lru i); [reflexivity | apply IH].
Qed.

(** The number of iterations of the loop. *)
Lemma loop_bound_is_shorter_length (st : state) :
  Z.to_nat (array_size st) = shorter_length st.
Proof.
  unfold shorter_length. rewrite array_size_min. reflexivity.
Qed.

(** C5, as the code has it.  The evaluation is the evaluation of the
    table made of the first n tiers of the arrays, n being the shorter of
    the declared lengths of the cutoff and the min_free table, six at
    most: the cutoff of the first of those n tiers that is breached, none
    when none of them is, whatever the cells beyond hold; when it is none
    the call returns at once.  With six cutoffs and four min_free values
    the evaluation is that of the four-tier table of the first four
    cells.  The model is a total function: no table makes the call
    fail. *)
Theorem table_is_cut_to_adj_and_minfree (st : state) :
  find_min_adj st
  = cutoff_or_none (evaluate_pressure st (prefix_tiers st (shorter_length st)))
  /\ (evaluate_pressure st (prefix_tiers st (shorter_length st)) = None ->
      forall nr_to_scan : Z,
        lowmem_shrink st nr_to_scan = (NoActionNeeded, st))
  /\ (lowmem_adj_size st = 6 -> lowmem_minfree_size st = 4 ->
      find_min_adj st
      = cutoff_or_none
          (evaluate_pressure st
             [tier_of st 0; tier_of st 1; tier_of st 2; tier_of st 3])).
Proof.
  assert (Hwalk : find_min_adj st
                  = cutoff_or_none
                      (evaluate_pressure st
                         (prefix_tiers st (shorter_length st)))).
  { unfold find_min_adj, evaluate_pressure, prefix_tiers.
    rewrite loop_bound_is_shorter_length. apply tier_walk_as_tier_list. }
  split; [exact Hwalk | split].
  - intros Hnone nr. apply lowmem_shrink_no_tier.
    rewrite Hwalk, Hnone. reflexivity.
  - intros Ha Hf. rewrite Hwalk.
    unfold shorter_length. rewrite Ha, Hf. reflexivity.
Qed.

Lemma table_is_cut_to_adj_and_minfree_witness :
  (find_min_adj Scenario.six_and_four
   = cutoff_or_none
       (evaluate_pressure Scenario.six_and_four
          [tier_of Scenario.six_and_four 0; tier_of Scenario.six_and_four 1;
           tier_of Scenario.six_and_four 2; tier_of Scenario.six_and_four 3])
   /\ find_min_adj Scenario.six_and_four = OOM_ADJUST_MAX + 1)
  /\ (find_min_adj Scenario.six_and_four_breached
      = cutoff_or_none
          (evaluate_pressure Scenario.six_and_four_breached
             [tier_of Scenario.six_and_four_breached 0;
              tier_of Scenario.six_and_four_breached 1;
              tier_of Scenario.six_and_four_breached 2;
              tier_of Scenario.six_and_four_breached 3])
      /\ find_min_adj Scenario.six_and_four_breached = 4).
Proof.
  split; (split; [| reflexivity]).
  - apply (proj2 (proj2 (table_is_cut_to_adj_and_minfree
                           Scenario.six_and_four)));
      reflexivity.
  - apply (proj2 (proj2 (table_is_cut_to_adj_and_minfree
                           Scenario.six_and_four_breached)));
      reflexivity.
Defined.

(** ** The profile swap *)

Section SixCells.

Lemma memcpy_whole (dst src : list Z) (n : nat) :
  length dst = n -> length src = n -> memcpy dst src n = src.
Proof.
  intros Hdst Hsrc. unfold memcpy.
  rewrite firstn_all2 by lia. rewrite skipn_all2 by lia.
  apply app_nil_r.
Qed.

End SixCells.

(** C10.  With the three arrays at their declared six cells: the suspend
    handler saves the active min_free table in the screen-on array and
    installs the screen-off one; the resume handler installs the screen-on
    array; and a suspend followed by a resume leaves the active table as
    it was before the suspend. *)
Theorem suspend_then_resume_restores_minfree (st : state) :
  minfree_arrays_sized st ->
  lowmem_minfree_screen_on (low_mem_early_suspend st) = lowmem_minfree st
  /\ lowmem_minfree (low_mem_early_suspend st) = lowmem_minfree_screen_off st
  /\ lowmem_minfree (low_mem_late_resume st) = lowmem_minfree_screen_on st
  /\ lowmem_minfree (low_mem_late_resume (low_mem_early_suspend st))
     = lowmem_minfree st.
Proof.
  intros [Hmin [Hon Hoff]].
  unfold low_mem_late_resume, low_mem_early_suspend, set_minfree. simpl.
  rewrite (memcpy_whole (lowmem_minfree_screen_on st) (lowmem_minfree st))
    by assumption.
  rewrite (memcpy_whole (lowmem_minfree st) (lowmem_minfree_screen_off st))
    by assumption.
  rewrite (memcpy_whole (lowmem_minfree st) (lowmem_minfree_screen_on st))
    by assumption.
  rewrite (memcpy_whole (lowmem_minfree_screen_off st) (lowmem_minfree st))
    by assumption.
  repeat split; reflexivity.
Qed.

Lemma suspend_then_resume_restores_minfree_witness :
  lowmem_minfree_screen_on (low_mem_early_suspend Scenario.screen_off_profile)
  = lowmem_minfree Scenario.screen_off_profile
  /\ lowmem_minfree (low_mem_early_suspend Scenario.screen_off_profile)
     = lowmem_minfree_screen_off Scenario.screen_off_profile
  /\ lowmem_minfree (low_mem_late_resume Scenario.screen_off_profile)
     = lowmem_minfree_screen_on Scenario.screen_off_profile
  /\ lowmem_minfree
       (low_mem_late_resume (low_mem_early_suspend Scenario.screen_off_profile))
     = lowmem_minfree Scenario.screen_off_profile.
Proof.
  apply (suspend_then_resume_restores_minfree Scenario.screen_off_profile).
  repeat split; reflexivity.
Defined.

(** ** The deadline *)

(** C1.  [lowmem_shrink] never writes [lowmem_deathpending_timeout]: the
    deadline that the scan compares [jiffies] with stays what it was, also
    after a kill.  Under heavy pressure at tick 1000 the first call kills
    process 101 and marks it as dying; the deadline is still 0.  A second
    call one tick later finds the dying process, sees the deadline passed,
    and sends a second SIGKILL instead of giving up. *)
Theorem kill_does_not_mark_the_deadline :
  (forall (st : state) (nr_to_scan : Z),
      lowmem_deathpending_timeout (snd (lowmem_shrink st nr_to_scan))
      = lowmem_deathpending_timeout st)
  /\ (fst (lowmem_shrink Scenario.two_victims 1) = Killed 101 4600
      /\ map tif_memdie (tasks (snd (lowmem_shrink Scenario.two_victims 1)))
         = [true; false]
      /\ lowmem_deathpending_timeout (snd (lowmem_shrink Scenario.two_victims 1))
         = 0)
  /\ (fst (lowmem_shrink
             (at_jiffies (snd (lowmem_shrink Scenario.two_victims 1)) 1001) 1)
      = Killed 101 4600
      /\ sigkill_sent
           (snd (lowmem_shrink
                   (at_jiffies (snd (lowmem_shrink Scenario.two_victims 1)) 1001)
                   1))
         = [101; 101]).
Proof.
  split; [| repeat split; vm_compute; reflexivity].
  intros st nr. unfold lowmem_shrink.
  destruct (find_min_adj st =? OOM_ADJUST_MAX + 1); [reflexivity|].
  destruct (nr <=? 0); [reflexivity|].
  destruct (scan_tasks (jiffies st) (lowmem_deathpending_timeout st)
              (find_min_adj st) (tasks st) 0 None) as [| [s|]];
    reflexivity.
Qed.

(** ** The scan of the process list *)

Section Scan.

Variables now timeout min_adj : Z.

Let scan := scan_tasks now timeout min_adj.

(** Where an entry of [seen ++ [t]] comes from. *)
Lemma nth_error_snoc (seen : list task_struct) (t q : task_struct) (j : nat) :
  nth_error (seen ++ [t]) j = Some q ->
  ((j < length seen)%nat /\ nth_error seen j = Some q)
  \/ (j = length seen /\ q = t).
Proof.
  intros Hj.
  destruct (Nat.lt_ge_cases j (length seen)) as [Hlt | Hge].
  - left. rewrite nth_error_app1 in Hj by assumption. auto.
  - right. rewrite nth_error_app2 in Hj by assumption.
    destruct (j - length seen)%nat as [|d] eqn:Hd; simpl in Hj.
    + injection Hj as Hq. split; [lia | auto].
    + destruct d; discriminate.
Qed.

Lemma nth_error_snoc_old (seen : list task_struct) (t p : task_struct)
    (j : nat) :
  nth_error seen j = Some p -> nth_error (seen ++ [t]) j = Some p.
Proof.
  intros Hj. rewrite nth_error_app1; [assumption|].
  apply nth_error_Some. rewrite Hj. discriminate.
Qed.

(** A task that does not pass the filters leaves the accumulator right. *)
Lemma selection_ok_skip (seen : list task_struct) (t : task_struct)
    (sel : option selection) :
  selection_ok min_adj seen sel ->
  ~ eligible min_adj t ->
  selection_ok min_adj (seen ++ [t]) sel.
Proof.
  intros Hok Hnot. destruct sel as [s|]; simpl in *.
  - destruct Hok as [p [Hp [Hel [Hadj [Hsize [Hmax Hfirst]]]]]].
    exists p. split; [apply nth_error_snoc_old; assumption|].
    split; [assumption|]. split; [assumption|]. split; [assumption|].
    split.
    + intros j q Hq Helq.
      destruct (nth_error_snoc _ _ _ _ Hq) as [[_ Hold] | [_ Heq]].
      * exact (Hmax j q Hold Helq).
      * subst q. contradiction.
    + intros j q Hlt Hq Helq.
      destruct (nth_error_snoc _ _ _ _ Hq) as [[_ Hold] | [_ Heq]].
      * exact (Hfirst j q Hlt Hold Helq).
      * subst q. contradiction.
  - intros q Hin. apply in_app_or in Hin. destruct Hin as [Hin | [Heq | []]].
    + apply Hok. assumption.
    + subst q. assumption.
Qed.

(** An eligible task that does not rank above the selected one leaves it
    selected. *)
Lemma selection_ok_keep (seen : list task_struct) (t : task_struct)
    (s : selection) :
  selection_ok min_adj seen (Some s) ->
  oom_adj t < sel_oom_adj s
  \/ (oom_adj t = sel_oom_adj s /\ task_size t <= sel_tasksize s) ->
  selection_ok min_adj (seen ++ [t]) (Some s).
Proof.
  intros Hok Hkeep. simpl in *.
  destruct Hok as [p [Hp [Hel [Hadj [Hsize [Hmax Hfirst]]]]]].
  assert (Hidx : (sel_index s < length seen)%nat).
  { apply nth_error_Some. rewrite Hp. discriminate. }
  exists p. split; [apply nth_error_snoc_old; assumption|].
  split; [assumption|]. split; [assumption|]. split; [assumption|].
  split.
  - intros j q Hq Helq.
    destruct (nth_error_snoc _ _ _ _ Hq) as [[_ Hold] | [_ Heq]].
    + exact (Hmax j q Hold Helq).
    + subst q. unfold ranks_le. rewrite <- Hadj, <- Hsize. exact Hkeep.
  - intros j q Hlt Hq Helq.
    destruct (nth_error_snoc _ _ _ _ Hq) as [[_ Hold] | [Hj _]].
    + exact (Hfirst j q Hlt Hold Helq).
    + lia.
Qed.

(** An eligible task that ranks above the selected one, or comes when
    nothing is selected yet, becomes the selected one. *)
Lemma selection_ok_replace (seen : list task_struct) (t : task_struct)
    (sel : option selection) :
  selection_ok min_adj seen sel ->
  eligible min_adj t ->
  match sel with
  | None => True
  | Some s =>
      sel_oom_adj s < oom_adj t
      \/ (sel_oom_adj s = oom_adj t /\ sel_tasksize s < task_size t)
  end ->
  selection_ok min_adj (seen ++ [t])
    (Some (Selection (length seen) (task_size t) (oom_adj t))).
Proof.
  intros Hok Helt Hbetter. simpl.
  exists t. split.
  { rewrite nth_error_app2 by lia. rewrite Nat.sub_diag. reflexivity. }
  split; [assumption|]. split; [reflexivity|]. split; [reflexivity|].
  assert (Hbelow : forall j q, nth_error seen j = Some q ->
                     eligible min_adj q -> ranks_lt q t).
  { intros j q Hq Helq. destruct sel as [s|]; simpl in Hok.
    - destruct Hok as [p [_ [_ [Hadj [Hsize [Hmax _]]]]]].
      pose proof (Hmax j q Hq Helq) as Hle.
      unfold ranks_le in Hle. unfold ranks_lt.
      rewrite Hadj, Hsize in Hbetter. lia.
    - exfalso. apply (Hok q); [| assumption].
      apply nth_error_In with (n := j). assumption. }
  split.
  - intros j q Hq Helq.
    destruct (nth_error_snoc _ _ _ _ Hq) as [[_ Hold] | [_ Heq]].
    + pose proof (Hbelow j q Hold Helq) as Hlt.
      unfold ranks_lt in Hlt. unfold ranks_le. lia.
    + subst q. unfold ranks_le. lia.
  - intros j q Hlt Hq Helq.
    destruct (nth_error_snoc _ _ _ _ Hq) as [[_ Hold] | [Hj _]].
    + exact (Hbelow j q Hold Helq).
    + lia.
Qed.

(** The accumulator stays right along the whole scan. *)
Lemma scan_tasks_invariant (ts seen : list task_struct)
    (sel r : option selection) :
  selection_ok min_adj seen sel ->
  scan ts (length seen) sel = ScanDone r ->
  selection_ok min_adj (seen ++ ts) r.
Proof.
  subst scan. revert seen sel.
  induction ts as [|t rest IH]; intros seen sel Hok Hscan.
  - simpl in Hscan. injection Hscan as Hr. subst r.
    rewrite app_nil_r. exact Hok.
  - replace (seen ++ t :: rest) with ((seen ++ [t]) ++ rest)
      by (rewrite <- app_assoc; reflexivity).
    assert (Hlen : S (length seen) = length (seen ++ [t])).
    { rewrite length_app. simpl. lia. }
    simpl in Hscan. rewrite Hlen in Hscan.
    destruct (pf_kthread t) eqn:Hk.
    { apply (IH _ sel); [| exact Hscan].
      apply selection_ok_skip; [assumption|].
      intros [Hk' _]. congruence. }
    destruct (mm_rss t) as [rss|] eqn:Hmm.
    2:{ apply (IH _ sel); [| exact Hscan].
        apply selection_ok_skip; [assumption|].
        intros [_ [Hmm' _]]. congruence. }
    destruct (tif_memdie t && time_before_eq now timeout);
      [discriminate|].
    destruct (oom_adj t <? min_adj) eqn:Hadj.
    { apply Z.ltb_lt in Hadj.
      apply (IH _ sel); [| exact Hscan].
      apply selection_ok_skip; [assumption|].
      intros [_ [_ [Hadj' _]]]. lia. }
    apply Z.ltb_ge in Hadj.
    assert (Hsize : task_size t = tasksize_of rss).
    { unfold task_size. rewrite Hmm. reflexivity. }
    destruct (tasksize_of rss <=? 0) eqn:Hrss.
    { apply Z.leb_le in Hrss.
      apply (IH _ sel); [| exact Hscan].
      apply selection_ok_skip; [assumption|].
      intros [_ [_ [_ Hpos]]]. lia. }
    apply Z.leb_gt in Hrss.
    assert (Helt : eligible min_adj t).
    { unfold eligible. rewrite Hk, Hmm, Hsize.
      repeat split; [discriminate | lia | lia]. }
    rewrite <- Hsize in Hscan.
    destruct sel as [s|].
    + destruct (oom_adj t <? sel_oom_adj s) eqn:Hlow; simpl in Hscan.
      { apply Z.ltb_lt in Hlow.
        apply (IH _ (Some s)); [| exact Hscan].
        apply selection_ok_keep; [assumption | lia]. }
      apply Z.ltb_ge in Hlow.
      destruct (oom_adj t =? sel_oom_adj s) eqn:Heq; simpl in Hscan.
      * apply Z.eqb_eq in Heq.
        destruct (task_size t <=? sel_tasksize s) eqn:Hsmall.
        { apply Z.leb_le in Hsmall.
          apply (IH _ (Some s)); [| exact Hscan].
          apply selection_ok_keep; [assumption | lia]. }
        apply Z.leb_gt in Hsmall.
        apply (IH _ _ (selection_ok_replace seen t (Some s) Hok Helt
                         ltac:(simpl; lia))).
        exact Hscan.
      * apply Z.eqb_neq in Heq.
        apply (IH _ _ (selection_ok_replace seen t (Some s) Hok Helt
                         ltac:(simpl; lia))).
        exact Hscan.
    + simpl in Hscan.
      apply (IH _ _ (selection_ok_replace seen t None Hok Helt I)).
      exact Hscan.
Qed.

(** With nobody eligible and nobody dying within the deadline the scan
    runs to its end and selects nothing. *)
Lemma scan_tasks_nobody (ts : list task_struct) (i : nat) :
  (forall t, In t ts -> ~ eligible min_adj t) ->
  (forall t, In t ts -> ~ death_pending now timeout t) ->
  scan ts i None = ScanDone None.
Proof.
  subst scan. revert i.
  induction ts as [|t rest IH]; intros i Hnone Hnodying; simpl;
    [reflexivity|].
  assert (IH' : scan_tasks now timeout min_adj rest (S i) None = ScanDone None).
  { apply IH; intros q Hq; [apply Hnone | apply Hnodying]; right; exact Hq. }
  pose proof (Hnone t (or_introl eq_refl)) as Ht.
  pose proof (Hnodying t (or_introl eq_refl)) as Hd.
  destruct (pf_kthread t) eqn:Hk; [exact IH'|].
  destruct (mm_rss t) as [rss|] eqn:Hmm; [| exact IH'].
  destruct (tif_memdie t && time_before_eq now timeout) eqn:Hdie.
  { exfalso. apply Hd. apply andb_true_iff in Hdie.
    destruct Hdie as [Hflag Htime].
    unfold death_pending. rewrite Hk, Hmm.
    repeat split; [discriminate | assumption | assumption]. }
  destruct (oom_adj t <? min_adj) eqn:Hadj; [exact IH'|].
  apply Z.ltb_ge in Hadj.
  destruct (tasksize_of rss <=? 0) eqn:Hrss; [exact IH'|].
  apply Z.leb_gt in Hrss.
  exfalso. apply Ht. unfold eligible, task_size. rewrite Hk, Hmm.
  repeat split; [discriminate | lia | lia].
Qed.

(** A task dying within the deadline makes the scan give up, whatever was
    selected before it is reached. *)
Lemma scan_tasks_dying (ts : list task_struct) (i : nat)
    (sel : option selection) :
  (exists t, In t ts /\ death_pending now timeout t) ->
  scan ts i sel = ScanAbort.
Proof.
  subst scan. revert i sel.
  induction ts as [|t0 rest IH]; intros i sel [t [Hin Hdie]];
    [destruct Hin|].
  assert (Hrest : t <> t0 ->
            forall i' sel', scan_tasks now timeout min_adj rest i' sel'
                            = ScanAbort).
  { intros Hne i' sel'. apply IH. exists t. split; [| exact Hdie].
    destruct Hin as [Heq | Hin]; [congruence | exact Hin]. }
  simpl.
  destruct (pf_kthread t0) eqn:Hk.
  { apply Hrest. intros Heq. subst t0.
    destruct Hdie as [Hk' _]. congruence. }
  destruct (mm_rss t0) as [rss|] eqn:Hmm.
  2:{ apply Hrest. intros Heq. subst t0.
      destruct Hdie as [_ [Hmm' _]]. congruence. }
  destruct (tif_memdie t0 && time_before_eq now timeout) eqn:Hflag;
    [reflexivity|].
  assert (Hne : t <> t0).
  { intros Heq. subst t0. destruct Hdie as [_ [_ [Hf Ht]]].
    rewrite Hf, Ht in Hflag. discriminate. }
  destruct (oom_adj t0 <? min_adj); [apply Hrest; exact Hne|].
  destruct (tasksize_of rss <=? 0); [apply Hrest; exact Hne|].
  destruct sel as [s|]; simpl.
  - destruct ((oom_adj t0 <? sel_oom_adj s)
              || (oom_adj t0 =? sel_oom_adj s)
                 && (tasksize_of rss <=? sel_tasksize s));
      apply Hrest; exact Hne.
  - apply Hrest; exact Hne.
Qed.

End Scan.

(** C4.  Whatever the process list and the cutoff, a task that the scan
    ends with as selected is in the list, is not a kernel thread, has a
    priority value of at least the cutoff and a positive resident size.
    No task that passes the filters ranks above it: each has a lower
    priority value, or the same one and no more resident memory.  Those
    that come before it in the list rank strictly below it, so among
    tasks tied on both the first one in enumeration order is selected. *)
Theorem selected_victim_is_the_best (now timeout min_adj : Z)
    (ts : list task_struct) (s : selection) :
  scan_tasks now timeout min_adj ts 0 None = ScanDone (Some s) ->
  exists p : task_struct,
    nth_error ts (sel_index s) = Some p
    /\ sel_oom_adj s = oom_adj p
    /\ sel_tasksize s = task_size p
    /\ pf_kthread p = false
    /\ min_adj <= oom_adj p
    /\ 0 < task_size p
    /\ (forall (j : nat) (q : task_struct),
          nth_error ts j = Some q -> eligible min_adj q -> ranks_le q p)
    /\ (forall (j : nat) (q : task_struct),
          (j < sel_index s)%nat -> nth_error ts j = Some q ->
          eligible min_adj q -> ranks_lt q p).
Proof.
  intros Hscan.
  assert (Hstart : selection_ok min_adj [] None).
  { intros q []. }
  pose proof (scan_tasks_invariant now timeout min_adj ts [] None (Some s)
                Hstart Hscan) as Hok.
  simpl in Hok.
  destruct Hok as [p [Hp [[Hk [_ [Hadj Hpos]]] [Ha [Hs [Hmax Hfirst]]]]]].
  exists p. repeat split; assumption.
Qed.

Lemma selected_victim_is_the_best_witness :
  exists p : task_struct,
    nth_error Scenario.tie_candidates (sel_index (Selection 3 500 15)) = Some p
    /\ sel_oom_adj (Selection 3 500 15) = oom_adj p
    /\ sel_tasksize (Selection 3 500 15) = task_size p
    /\ pf_kthread p = false
    /\ 6 <= oom_adj p
    /\ 0 < task_size p
    /\ (forall (j : nat) (q : task_struct),
          nth_error Scenario.tie_candidates j = Some q ->
          eligible 6 q -> ranks_le q p)
    /\ (forall (j : nat) (q : task_struct),
          (j < sel_index (Selection 3 500 15))%nat ->
          nth_error Scenario.tie_candidates j = Some q ->
          eligible 6 q -> ranks_lt q p).
Proof.
  apply (selected_victim_is_the_best 1000 0 6 Scenario.tie_candidates
           (Selection 3 500 15)).
  reflexivity.
Defined.

(** What a kill is: the task the scan selected gets the signal and the
    flag, and nothing else changes. *)
Lemma lowmem_shrink_killed (st st' : state) (nr_to_scan victim rem : Z) :
  lowmem_shrink st nr_to_scan = (Killed victim rem, st') ->
  exists s : selection,
    scan_tasks (jiffies st) (lowmem_deathpending_timeout st)
      (find_min_adj st) (tasks st) 0 None = ScanDone (Some s)
    /\ st' = kill_selected st (sel_index s)
    /\ rem = to_int (lru_pages st - sel_tasksize s).
Proof.
  unfold lowmem_shrink.
  destruct (find_min_adj st =? OOM_ADJUST_MAX + 1); [discriminate|].
  destruct (nr_to_scan <=? 0); [discriminate|].
  destruct (scan_tasks (jiffies st) (lowmem_deathpending_timeout st)
              (find_min_adj st) (tasks st) 0 None) as [| [s|]];
    try discriminate.
  intros Heq. injection Heq as _ Hrem Hst.
  exists s. repeat split; congruence.
Qed.

(** ** Nobody to kill *)

(** An empty process list with a tier breached: the last return, with
    [rem = -1]. *)
Lemma empty_process_list_no_kill (st : state) (nr_to_scan : Z) :
  0 < nr_to_scan ->
  find_min_adj st <> OOM_ADJUST_MAX + 1 ->
  tasks st = [] ->
  lowmem_shrink st nr_to_scan = (NoEligibleVictim, st).
Proof.
  intros Hnr Hbreached Hempty. unfold lowmem_shrink.
  apply Z.eqb_neq in Hbreached. rewrite Hbreached, Hempty.
  replace (nr_to_scan <=? 0) with false by (symmetry; apply Z.leb_gt; lia).
  reflexivity.
Qed.

(** C9.  On a call that scans ([nr_to_scan > 0]) with a tier breached
    (the walk returned a cutoff, not [OOM_ADJUST_MAX + 1]) and no task
    dying within the deadline: when no task passes the filters, which an
    empty process list satisfies, [lowmem_shrink] ends at its last return
    with [rem = -1], an outcome of its own and no failure; no signal is
    sent and nothing in the state changes. *)
Theorem no_candidate_no_kill (st : state) (nr_to_scan : Z) :
  0 < nr_to_scan ->
  find_min_adj st <> OOM_ADJUST_MAX + 1 ->
  (forall t, In t (tasks st) -> ~ eligible (find_min_adj st) t) ->
  (forall t, In t (tasks st) ->
     ~ death_pending (jiffies st) (lowmem_deathpending_timeout st) t) ->
  lowmem_shrink st nr_to_scan = (NoEligibleVictim, st)
  /\ return_value (fst (lowmem_shrink st nr_to_scan)) = -1
  /\ sigkill_sent (snd (lowmem_shrink st nr_to_scan)) = sigkill_sent st.
Proof.
  intros Hnr Hbreached Hnone Hnodying.
  assert (Hrun : lowmem_shrink st nr_to_scan = (NoEligibleVictim, st)).
  { unfold lowmem_shrink.
    apply Z.eqb_neq in Hbreached. rewrite Hbreached.
    replace (nr_to_scan <=? 0) with false by (symmetry; apply Z.leb_gt; lia).
    rewrite scan_tasks_nobody by assumption. reflexivity. }
  rewrite Hrun. repeat split.
Qed.

Lemma no_candidate_no_kill_witness :
  lowmem_shrink Scenario.nobody_eligible 1
  = (NoEligibleVictim, Scenario.nobody_eligible)
  /\ return_value (fst (lowmem_shrink Scenario.nobody_eligible 1)) = -1
  /\ sigkill_sent (snd (lowmem_shrink Scenario.nobody_eligible 1))
     = sigkill_sent Scenario.nobody_eligible.
Proof.
  apply (no_candidate_no_kill Scenario.nobody_eligible 1).
  - reflexivity.
  - vm_compute. discriminate.
  - intros t [Ht | [Ht | [Ht | []]]]; subst t;
      intros (Hk & Hm & Ha & Hs); vm_compute in Hk, Ha, Hs;
      try discriminate; apply Ha; reflexivity.
  - intros t [Ht | [Ht | [Ht | []]]]; subst t;
      intros (_ & _ & Hd & _); discriminate.
Defined.

(** ** Giving up while a task is dying *)

(** The check of lines 196-201: on a scanning call with a tier breached,
    a task flagged as dying while [jiffies] is not after
    [lowmem_deathpending_timeout] makes [lowmem_shrink] return 0 without
    sending a signal. *)
Lemma dying_task_defers (st : state) (nr_to_scan : Z) :
  0 < nr_to_scan ->
  find_min_adj st <> OOM_ADJUST_MAX + 1 ->
  (exists t, In t (tasks st)
             /\ death_pending (jiffies st) (lowmem_deathpending_timeout st) t) ->
  lowmem_shrink st nr_to_scan = (DeferredCooldownActive, st).
Proof.
  intros Hnr Hbreached Hdying. unfold lowmem_shrink.
  apply Z.eqb_neq in Hbreached. rewrite Hbreached.
  replace (nr_to_scan <=? 0) with false by (symmetry; apply Z.leb_gt; lia).
  rewrite scan_tasks_dying by assumption. reflexivity.
Qed.

(** * Further properties of the driver *)

(** ** What a call can end with *)

(** The scan gives up only at a task that is dying within the deadline. *)
Lemma scan_tasks_abort_dying (now timeout min_adj : Z)
    (ts : list task_struct) (i : nat) (sel : option selection) :
  scan_tasks now timeout min_adj ts i sel = ScanAbort ->
  exists t, In t ts /\ death_pending now timeout t.
Proof.
  revert i sel.
  induction ts as [|t0 rest IH]; intros i sel Hscan; simpl in Hscan;
    [discriminate|].
  assert (Hrest : forall i' sel',
            scan_tasks now timeout min_adj rest i' sel' = ScanAbort ->
            exists t, In t (t0 :: rest) /\ death_pending now timeout t).
  { intros i' sel' H. destruct (IH i' sel' H) as [t [Hin Hd]].
    exists t. split; [right; exact Hin | exact Hd]. }
  destruct (pf_kthread t0) eqn:Hk; [exact (Hrest _ _ Hscan)|].
  destruct (mm_rss t0) as [rss|] eqn:Hmm; [| exact (Hrest _ _ Hscan)].
  destruct (tif_memdie t0 && time_before_eq now timeout) eqn:Hflag.
  { apply andb_true_iff in Hflag. destruct Hflag as [Hf Ht].
    exists t0. split; [left; reflexivity|].
    unfold death_pending. rewrite Hk, Hmm.
    repeat split; [discriminate | assumption | assumption]. }
  destruct (oom_adj t0 <? min_adj); [exact (Hrest _ _ Hscan)|].
  destruct (tasksize_of rss <=? 0); [exact (Hrest _ _ Hscan)|].
  destruct sel as [s|]; simpl in Hscan.
  - destruct ((oom_adj t0 <? sel_oom_adj s)
              || (oom_adj t0 =? sel_oom_adj s)
                 && (tasksize_of rss <=? sel_tasksize s));
      exact (Hrest _ _ Hscan).
  - exact (Hrest _ _ Hscan).
Qed.

(** With nobody dying within the deadline the scan runs to its end. *)
Lemma scan_tasks_no_abort (now timeout min_adj : Z)
    (ts : list task_struct) (i : nat) (sel : option selection) :
  (forall t, In t ts -> ~ death_pending now timeout t) ->
  exists r, scan_tasks now timeout min_adj ts i sel = ScanDone r.
Proof.
  intros Hnone.
  destruct (scan_tasks now timeout min_adj ts i sel) as [|r] eqn:Hscan.
  - destruct (scan_tasks_abort_dying _ _ _ _ _ _ Hscan) as [t [Hin Hd]].
    exfalso. exact (Hnone t Hin Hd).
  - exists r. reflexivity.
Qed.

(** What the scan from the start of the list ends with is right for the
    whole list. *)
Lemma scan_tasks_result_ok (now timeout min_adj : Z)
    (ts : list task_struct) (r : option selection) :
  scan_tasks now timeout min_adj ts 0 None = ScanDone r ->
  selection_ok min_adj ts r.
Proof.
  intros Hscan.
  assert (Hstart : selection_ok min_adj [] None) by (intros q []).
  exact (scan_tasks_invariant now timeout min_adj ts [] None r Hstart Hscan).
Qed.

(** The cutoff the walk returns is [OOM_ADJUST_MAX + 1] or the cutoff of
    one of the tiers walked. *)
Lemma find_min_adj_value (st : state) :
  find_min_adj st = OOM_ADJUST_MAX + 1
  \/ exists i : nat, (i < tier_count st)%nat /\ find_min_adj st = tier_adj st i.
Proof.
  unfold find_min_adj, tier_count, tier_adj.
  destruct (tier_walk_cases st (other_free st) (other_file st) (lru_file st)
              (Z.to_nat (array_size st)) 0)
    as [[k [Hk [_ [_ Hres]]]] | [_ Hres]]; simpl in *.
  - right. exists k. split; assumption.
  - left. exact Hres.
Qed.

(** X1.  A call with [nr_to_scan <= 0] only reports: it changes nothing
    and sends no signal, whatever the process list holds.  It returns 0
    when no tier is breached and the count of the four LRU lists
    otherwise. *)
Theorem query_call_changes_nothing (st : state) (nr_to_scan : Z) :
  nr_to_scan <= 0 ->
  snd (lowmem_shrink st nr_to_scan) = st
  /\ (find_min_adj st = OOM_ADJUST_MAX + 1 ->
      fst (lowmem_shrink st nr_to_scan) = NoActionNeeded)
  /\ (find_min_adj st <> OOM_ADJUST_MAX + 1 ->
      fst (lowmem_shrink st nr_to_scan) = CacheCount (lru_pages st)).
Proof.
  intros Hnr. unfold lowmem_shrink.
  replace (nr_to_scan <=? 0) with true by (symmetry; apply Z.leb_le; exact Hnr).
  destruct (find_min_adj st =? OOM_ADJUST_MAX + 1) eqn:Hmin.
  - apply Z.eqb_eq in Hmin. repeat split. intros Hne. contradiction.
  - apply Z.eqb_neq in Hmin. repeat split. intros Heq. contradiction.
Qed.

Lemma query_call_changes_nothing_witness :
  snd (lowmem_shrink Scenario.two_victims 0) = Scenario.two_victims
  /\ (find_min_adj Scenario.two_victims = OOM_ADJUST_MAX + 1 ->
      fst (lowmem_shrink Scenario.two_victims 0) = NoActionNeeded)
  /\ (find_min_adj Scenario.two_victims <> OOM_ADJUST_MAX + 1 ->
      fst (lowmem_shrink Scenario.two_victims 0)
      = CacheCount (lru_pages Scenario.two_victims)).
Proof.
  apply (query_call_changes_nothing Scenario.two_victims 0).
  vm_compute. discriminate.
Defined.

(** X2.  A call gives up with [return 0] at line 200 exactly when it
    scans ([nr_to_scan > 0]), a tier is breached, and some task of the
    list that is no kernel thread and has an address space is flagged as
    dying while [jiffies] is not after the deadline.  Where that task
    stands in the list and what was selected before it do not matter. *)
Theorem deferred_iff_a_task_is_dying (st : state) (nr_to_scan : Z) :
  fst (lowmem_shrink st nr_to_scan) = DeferredCooldownActive
  <-> (0 < nr_to_scan
       /\ find_min_adj st <> OOM_ADJUST_MAX + 1
       /\ exists t, In t (tasks st)
                    /\ death_pending (jiffies st)
                         (lowmem_deathpending_timeout st) t).
Proof.
  unfold lowmem_shrink. split.
  - destruct (find_min_adj st =? OOM_ADJUST_MAX + 1) eqn:Hmin;
      [discriminate|].
    destruct (nr_to_scan <=? 0) eqn:Hnr; [discriminate|].
    destruct (scan_tasks (jiffies st) (lowmem_deathpending_timeout st)
                (find_min_adj st) (tasks st) 0 None) as [| [s|]] eqn:Hscan;
      try discriminate.
    intros _. apply Z.eqb_neq in Hmin. apply Z.leb_gt in Hnr.
    split; [exact Hnr | split; [exact Hmin |]].
    exact (scan_tasks_abort_dying _ _ _ _ _ _ Hscan).
  - intros [Hnr [Hmin Hdying]].
    apply Z.eqb_neq in Hmin. rewrite Hmin.
    replace (nr_to_scan <=? 0) with false by (symmetry; apply Z.leb_gt; lia).
    rewrite scan_tasks_dying by assumption. reflexivity.
Qed.

(** X3.  A call kills exactly when it scans, a tier is breached, no task
    is dying within the deadline, and at least one task passes the
    filters for the cutoff found. *)
Theorem kill_iff_candidate_and_nobody_dying (st : state) (nr_to_scan : Z) :
  (exists victim rem, fst (lowmem_shrink st nr_to_scan) = Killed victim rem)
  <-> (0 < nr_to_scan
       /\ find_min_adj st <> OOM_ADJUST_MAX + 1
       /\ no_task_dying st
       /\ exists t, In t (tasks st) /\ eligible (find_min_adj st) t).
Proof.
  unfold lowmem_shrink, no_task_dying. split.
  - intros [victim [rem Hkill]].
    destruct (find_min_adj st =? OOM_ADJUST_MAX + 1) eqn:Hmin;
      [discriminate|].
    destruct (nr_to_scan <=? 0) eqn:Hnr; [discriminate|].
    destruct (scan_tasks (jiffies st) (lowmem_deathpending_timeout st)
                (find_min_adj st) (tasks st) 0 None) as [| [s|]] eqn:Hscan;
      try discriminate.
    apply Z.eqb_neq in Hmin. apply Z.leb_gt in Hnr.
    split; [exact Hnr | split; [exact Hmin | split]].
    + intros t Hin Hd.
      rewrite scan_tasks_dying in Hscan; [discriminate|].
      exists t. split; assumption.
    + pose proof (scan_tasks_result_ok _ _ _ _ _ Hscan) as Hok.
      simpl in Hok. destruct Hok as [p [Hp [Hel _]]].
      exists p. split; [| exact Hel].
      apply nth_error_In with (n := sel_index s). exact Hp.
  - intros [Hnr [Hmin [Hnodying [t [Hin Hel]]]]].
    apply Z.eqb_neq in Hmin. rewrite Hmin.
    replace (nr_to_scan <=? 0) with false by (symmetry; apply Z.leb_gt; lia).
    destruct (scan_tasks_no_abort (jiffies st) (lowmem_deathpending_timeout st)
                (find_min_adj st) (tasks st) 0 None Hnodying) as [r Hscan].
    rewrite Hscan.
    pose proof (scan_tasks_result_ok _ _ _ _ _ Hscan) as Hok.
    destruct r as [s|].
    + eexists. eexists. reflexivity.
    + exfalso. exact (Hok t Hin Hel).
Qed.

Lemma deferred_iff_a_task_is_dying_witness :
  fst (lowmem_shrink Scenario.cooldown_ahead 1) = DeferredCooldownActive.
Proof.
  apply (deferred_iff_a_task_is_dying Scenario.cooldown_ahead 1).
  split; [reflexivity | split; [vm_compute; discriminate |]].
  exists (Task 101 false (Some 500) true 15).
  split; [right; left; reflexivity |].
  unfold death_pending. simpl.
  repeat split; try discriminate; reflexivity.
Defined.

Lemma kill_iff_candidate_and_nobody_dying_witness :
  exists victim rem,
    fst (lowmem_shrink Scenario.many_candidates 1) = Killed victim rem.
Proof.
  apply (kill_iff_candidate_and_nobody_dying Scenario.many_candidates 1).
  split; [reflexivity | split; [vm_compute; discriminate | split]].
  - intros t Hin (_ & _ & _ & Htime). vm_compute in Htime. discriminate.
  - exists (Task 64 false (Some 800) false 6).
    split; [do 5 right; left; reflexivity |].
    unfold eligible. simpl.
    repeat split; try discriminate; vm_compute; discriminate.
Defined.

(** ** What a call changes *)

Lemma set_memdie_at_same (ts : list task_struct) (i : nat) (p : task_struct) :
  nth_error ts i = Some p ->
  nth_error (set_memdie_at i ts) i = Some (set_tsk_memdie p).
Proof.
  revert i. induction ts as [|t rest IH]; intros i Hi.
  - destruct i; discriminate.
  - destruct i as [|i']; simpl in *.
    + injection Hi as Hp. subst t. reflexivity.
    + apply IH. exact Hi.
Qed.

Lemma set_memdie_at_other (ts : list task_struct) (i j : nat) :
  j <> i -> nth_error (set_memdie_at i ts) j = nth_error ts j.
Proof.
  revert i j. induction ts as [|t rest IH]; intros i j Hne.
  - destruct i; reflexivity.
  - destruct i as [|i']; destruct j as [|j']; simpl;
      try reflexivity; try congruence.
    apply IH. congruence.
Qed.

(** X4.  A kill touches one task and nothing else.  The victim is an
    entry of the process list; its pid is appended to the signals sent,
    its TIF_MEMDIE flag is set, and every other entry of the list is as it
    was.  The value returned is the count of the four LRU lists minus the
    victim's resident size.  The module's variables, the clock and the
    counters are not written. *)
Theorem kill_marks_and_signals_one_task (st st' : state)
    (nr_to_scan victim rem : Z) :
  lowmem_shrink st nr_to_scan = (Killed victim rem, st') ->
  exists (idx : nat) (p : task_struct),
    nth_error (tasks st) idx = Some p
    /\ victim = pid p
    /\ rem = to_int (lru_pages st - task_size p)
    /\ sigkill_sent st' = sigkill_sent st ++ [victim]
    /\ nth_error (tasks st') idx = Some (set_tsk_memdie p)
    /\ (forall j : nat, j <> idx ->
          nth_error (tasks st') j = nth_error (tasks st) j)
    /\ only_tasks_and_signals_differ st st'.
Proof.
  unfold lowmem_shrink.
  destruct (find_min_adj st =? OOM_ADJUST_MAX + 1); [discriminate|].
  destruct (nr_to_scan <=? 0); [discriminate|].
  destruct (scan_tasks (jiffies st) (lowmem_deathpending_timeout st)
              (find_min_adj st) (tasks st) 0 None) as [| [s|]] eqn:Hscan;
    try discriminate.
  intros Heq. injection Heq as Hv Hrem Hst.
  pose proof (scan_tasks_result_ok _ _ _ _ _ Hscan) as Hok.
  simpl in Hok. destruct Hok as [p [Hp [_ [_ [Hsize _]]]]].
  assert (Hnth : nth (sel_index s) (tasks st) (Task 0 false None false 0) = p).
  { apply nth_error_nth. exact Hp. }
  rewrite Hnth in Hv.
  exists (sel_index s), p. subst st' victim rem.
  unfold kill_selected, only_tasks_and_signals_differ. simpl.
  rewrite Hnth, Hsize.
  repeat split.
  - exact Hp.
  - apply set_memdie_at_same. exact Hp.
  - intros j Hj. apply set_memdie_at_other. exact Hj.
Qed.

Lemma kill_marks_and_signals_one_task_witness :
  exists (idx : nat) (p : task_struct),
    nth_error (tasks Scenario.two_victims) idx = Some p
    /\ 101 = pid p
    /\ 4600 = to_int (lru_pages Scenario.two_victims - task_size p)
    /\ sigkill_sent (snd (lowmem_shrink Scenario.two_victims 1))
       = sigkill_sent Scenario.two_victims ++ [101]
    /\ nth_error (tasks (snd (lowmem_shrink Scenario.two_victims 1))) idx
       = Some (set_tsk_memdie p)
    /\ (forall j : nat, j <> idx ->
          nth_error (tasks (snd (lowmem_shrink Scenario.two_victims 1))) j
          = nth_error (tasks Scenario.two_victims) j)
    /\ only_tasks_and_signals_differ Scenario.two_victims
         (snd (lowmem_shrink Scenario.two_victims 1)).
Proof.
  apply (kill_marks_and_signals_one_task Scenario.two_victims
           (snd (lowmem_shrink Scenario.two_victims 1)) 1 101 4600).
  reflexivity.
Defined.

(** X5.  Whatever a call ends with, it leaves the module's variables
    (tables, declared lengths, toggles, deadline), the clock, the counters
    and the free swap as they were; and unless it kills it leaves the
    whole state as it was: the three other returns send no signal and set
    no flag. *)
Theorem only_a_kill_changes_the_state (st : state) (nr_to_scan : Z) :
  only_tasks_and_signals_differ st (snd (lowmem_shrink st nr_to_scan))
  /\ ((forall victim rem,
         fst (lowmem_shrink st nr_to_scan) <> Killed victim rem) ->
      snd (lowmem_shrink st nr_to_scan) = st).
Proof.
  assert (Hsame : only_tasks_and_signals_differ st st).
  { unfold only_tasks_and_signals_differ. destruct st; reflexivity. }
  unfold lowmem_shrink.
  destruct (find_min_adj st =? OOM_ADJUST_MAX + 1); [split; auto|].
  destruct (nr_to_scan <=? 0); [split; auto|].
  destruct (scan_tasks (jiffies st) (lowmem_deathpending_timeout st)
              (find_min_adj st) (tasks st) 0 None) as [| [s|]];
    [split; auto | | split; auto].
  simpl. split.
  - unfold only_tasks_and_signals_differ, kill_selected. reflexivity.
  - intros Hnot. exfalso. eapply Hnot. reflexivity.
Qed.

(** X6.  A task that cannot pass the filters is never the one killed: a
    kernel thread, a task without an address space or without resident
    pages, and a task whose priority value is below every cutoff of the
    tiers walked keep their entry of the process list as it was after any
    call, and when the call kills, the victim is another entry. *)
Theorem out_of_reach_task_is_never_the_victim (st : state) (nr_to_scan : Z)
    (idx : nat) (p : task_struct) :
  nth_error (tasks st) idx = Some p ->
  out_of_reach st p ->
  nth_error (tasks (snd (lowmem_shrink st nr_to_scan))) idx = Some p
  /\ (forall victim rem,
        fst (lowmem_shrink st nr_to_scan) = Killed victim rem ->
        exists (idx' : nat) (p' : task_struct),
          idx' <> idx
          /\ nth_error (tasks st) idx' = Some p'
          /\ victim = pid p').
Proof.
  intros Hp Hout.
  assert (Hnot : ~ eligible (find_min_adj st) p
                 \/ find_min_adj st = OOM_ADJUST_MAX + 1).
  { destruct Hout as [Hk | [Hm | [Hs | Hlow]]].
    - left. intros [Hk' _]. congruence.
    - left. intros [_ [Hm' _]]. congruence.
    - left. intros [_ [_ [_ Hs']]]. lia.
    - destruct (find_min_adj_value st) as [Hnone | [i [Hi Hval]]].
      + right. exact Hnone.
      + left. intros [_ [_ [Hadj _]]]. specialize (Hlow i Hi). lia. }
  unfold lowmem_shrink.
  destruct (find_min_adj st =? OOM_ADJUST_MAX + 1) eqn:Hmin.
  { split; [exact Hp | intros v r H; discriminate]. }
  apply Z.eqb_neq in Hmin.
  destruct Hnot as [Hnot | Hnone]; [| contradiction].
  destruct (nr_to_scan <=? 0).
  { split; [exact Hp | intros v r H; discriminate]. }
  destruct (scan_tasks (jiffies st) (lowmem_deathpending_timeout st)
              (find_min_adj st) (tasks st) 0 None) as [| [s|]] eqn:Hscan.
  - split; [exact Hp | intros v r H; discriminate].
  - pose proof (scan_tasks_result_ok _ _ _ _ _ Hscan) as Hok.
    simpl in Hok. destruct Hok as [q [Hq [Hel _]]].
    assert (Hne : sel_index s <> idx).
    { intros Heq. rewrite Heq in Hq. rewrite Hq in Hp.
      injection Hp as Hpq. subst q. contradiction. }
    simpl. split.
    + rewrite set_memdie_at_other by congruence. exact Hp.
    + intros v r Hkill. injection Hkill as Hv _.
      exists (sel_index s), q.
      split; [exact Hne | split; [exact Hq |]].
      rewrite <- Hv. f_equal. apply nth_error_nth. exact Hq.
  - split; [exact Hp | intros v r H; discriminate].
Qed.

Lemma out_of_reach_task_is_never_the_victim_witness :
  nth_error (tasks (snd (lowmem_shrink Scenario.many_candidates 1))) 0
  = Some (Task 2 true None false 0)
  /\ (forall victim rem,
        fst (lowmem_shrink Scenario.many_candidates 1) = Killed victim rem ->
        exists (idx' : nat) (p' : task_struct),
          idx' <> 0%nat
          /\ nth_error (tasks Scenario.many_candidates) idx' = Some p'
          /\ victim = pid p').
Proof.
  apply (out_of_reach_task_is_never_the_victim Scenario.many_candidates 1 0
           (Task 2 true None false 0)).
  - reflexivity.
  - left. reflexivity.
Defined.

(** ** How the cutoff moves with the snapshot and the toggles *)

Lemma tier_breached_true_iff (st : state) (free file lru : Z) (i : nat) :
  tier_breached st free file lru i = true
  <-> free < tier_minfree st i
      /\ (file < tier_minfree st i
          \/ (lowmem_check_filepages st <> 0
              /\ to_ulong lru < tier_minfile st i)).
Proof.
  unfold tier_breached, tier_minfree, tier_minfile.
  rewrite andb_true_iff, orb_true_iff, andb_true_iff, negb_true_iff.
  rewrite !Z.ltb_lt, Z.eqb_neq. reflexivity.
Qed.

Lemma tier_walk_value (st : state) (free file lru : Z) (n i : nat) :
  tier_walk st free file lru n i = OOM_ADJUST_MAX + 1
  \/ exists k : nat,
       (k < n)%nat
       /\ tier_walk st free file lru n i = nth (i + k) (lowmem_adj st) 0.
Proof.
  destruct (tier_walk_cases st free file lru n i)
    as [[k [Hk [_ [_ Hres]]]] | [_ Hres]]; simpl in *.
  - right. exists k. split; assumption.
  - left. exact Hres.
Qed.

(** The first index whose test succeeds decides the result. *)
Lemma tier_walk_first (st : state) (free file lru : Z) (n i : nat) :
  (i < n)%nat ->
  tier_breached st free file lru i = true ->
  (forall j : nat, (j < i)%nat -> tier_breached st free file lru j = false) ->
  tier_walk st free file lru n 0 = nth i (lowmem_adj st) 0.
Proof.
  intros Hi Hb Hbefore.
  destruct (tier_walk_cases st free file lru n 0)
    as [[k [Hk [Hbk [Hbeforek Hres]]]] | [Hnone _]]; simpl in *.
  - destruct (Nat.lt_trichotomy k i) as [Hlt | [Heq | Hgt]].
    + rewrite (Hbefore k Hlt) in Hbk. discriminate.
    + subst k. exact Hres.
    + rewrite (Hbeforek i Hgt) in Hb. discriminate.
  - rewrite (Hnone i Hi) in Hb. discriminate.
Qed.

(** When every test that succeeds in one walk succeeds in the other, over
    cutoffs in ascending order, the other walk returns no higher a
    cutoff. *)
Lemma tier_walk_mono (stA stB : state) (fA fiA lA fB fiB lB : Z) (n i : nat) :
  lowmem_adj stB = lowmem_adj stA ->
  (forall j : nat, (j < n)%nat ->
      tier_breached stA fA fiA lA (i + j) = true ->
      tier_breached stB fB fiB lB (i + j) = true) ->
  (forall j k : nat, (j <= k)%nat -> (k < n)%nat ->
      nth (i + j) (lowmem_adj stA) 0 <= nth (i + k) (lowmem_adj stA) 0) ->
  (forall j : nat, (j < n)%nat ->
      nth (i + j) (lowmem_adj stA) 0 <= OOM_ADJUST_MAX + 1) ->
  tier_walk stB fB fiB lB n i <= tier_walk stA fA fiA lA n i.
Proof.
  intros Hadj. revert i.
  induction n as [|n' IH]; intros i Himp Hasc Hmax; simpl;
    [apply Z.le_refl|].
  pose proof (Himp 0%nat ltac:(lia)) as Himp0.
  pose proof (Hmax 0%nat ltac:(lia)) as Hmax0.
  rewrite Nat.add_0_r in Himp0, Hmax0.
  destruct (tier_breached stA fA fiA lA i) eqn:HA.
  - rewrite (Himp0 eq_refl), Hadj. apply Z.le_refl.
  - destruct (tier_breached stB fB fiB lB i) eqn:HB.
    + rewrite Hadj.
      destruct (tier_walk_value stA fA fiA lA n' (S i))
        as [H16 | [k [Hk Hval]]].
      * rewrite H16. exact Hmax0.
      * rewrite Hval.
        pose proof (Hasc 0%nat (S k) ltac:(lia) ltac:(lia)) as Hle.
        rewrite Nat.add_0_r in Hle.
        replace (S i + k)%nat with (i + S k)%nat by lia. exact Hle.
    + apply IH.
      * intros j Hj. replace (S i + j)%nat with (i + S j)%nat by lia.
        apply Himp. lia.
      * intros j k Hjk Hk.
        replace (S i + j)%nat with (i + S j)%nat by lia.
        replace (S i + k)%nat with (i + S k)%nat by lia.
        apply Hasc; lia.
      * intros j Hj. replace (S i + j)%nat with (i + S j)%nat by lia.
        apply Hmax. lia.
Qed.

(** [tier_walk_mono] from index 0, with the order of the cutoffs given by
    [cutoffs_ascending]. *)
Lemma find_min_adj_mono (st : state) (stB : state) (fB fiB lB : Z) :
  lowmem_adj stB = lowmem_adj st ->
  cutoffs_ascending st ->
  (forall j : nat, (j < tier_count st)%nat ->
      tier_breached st (other_free st) (other_file st) (lru_file st) j = true ->
      tier_breached stB fB fiB lB j = true) ->
  tier_walk stB fB fiB lB (tier_count st) 0 <= find_min_adj st.
Proof.
  intros Hadj [Hasc Hmax] Himp. unfold find_min_adj.
  apply tier_walk_mono; simpl; assumption.
Qed.

(** X7.  With the cutoffs in ascending order, more pressure never raises
    the cutoff: between two snapshots under the same tables, the one with
    no more free pages, no more effective file pages and no more LRU file
    pages gets a cutoff that is no higher, so every process within reach
    under the lighter pressure is within reach under the heavier one. *)
Theorem more_pressure_never_raises_cutoff (st st' : state) :
  same_tables st st' ->
  cutoffs_ascending st ->
  other_free st' <= other_free st ->
  other_file st' <= other_file st ->
  0 <= lru_file st' <= lru_file st ->
  find_min_adj st' <= find_min_adj st.
Proof.
  intros [Hadj [Hadjn [Hmin [Hminn [Hfile Hcheck]]]]] Hasc Hfree Hfiles Hlru.
  assert (Hcount : Z.to_nat (array_size st') = tier_count st).
  { unfold tier_count, array_size. rewrite Hadjn, Hminn. reflexivity. }
  unfold find_min_adj at 1. rewrite Hcount.
  apply find_min_adj_mono; [exact Hadj | exact Hasc |].
  intros j _. rewrite !tier_breached_true_iff.
  unfold tier_minfree, tier_minfile. rewrite Hmin, Hfile, Hcheck.
  rewrite (to_ulong_of_nonneg_int (lru_file st'))
    by (try apply to_int_range; lia).
  rewrite (to_ulong_of_nonneg_int (lru_file st))
    by (try apply to_int_range; lia).
  intros [Hf [Hfi | [Hc Hl]]]; (split; [lia |]);
    [left; lia | right; split; [exact Hc | lia]].
Qed.

(** The six cells of a table, one by one. *)
Ltac below_six i :=
  do 6 (destruct i as [|i]; [vm_compute; discriminate || lia |]); lia.

Ltac ascending_below_six j k :=
  do 6 (destruct k as [|k];
        [do 6 (destruct j as [|j]; [vm_compute; discriminate || lia |]); lia |]);
  lia.

Lemma more_pressure_never_raises_cutoff_witness :
  find_min_adj Scenario.two_victims <= find_min_adj Scenario.mild_pressure.
Proof.
  apply (more_pressure_never_raises_cutoff
           Scenario.mild_pressure Scenario.two_victims).
  - repeat split; reflexivity.
  - split.
    + intros j k Hjk Hk.
      change (tier_count Scenario.mild_pressure) with 6%nat in Hk.
      ascending_below_six j k.
    + intros i Hi.
      change (tier_count Scenario.mild_pressure) with 6%nat in Hi.
      below_six i.
  - vm_compute. discriminate.
  - vm_compute. discriminate.
  - vm_compute. split; discriminate.
Defined.

(** X8.  With the cutoffs in ascending order, the file-page check never
    raises the cutoff: whatever the toggle is set to, the cutoff is no
    higher than the one found with the toggle at 0.  The check only adds
    a second way for a tier to be breached. *)
Theorem file_check_never_raises_cutoff (st : state) :
  cutoffs_ascending st ->
  find_min_adj st <= find_min_adj (with_check st 0).
Proof.
  intros Hasc.
  change (find_min_adj st)
    with (tier_walk st (other_free (with_check st 0))
            (other_file (with_check st 0)) (lru_file (with_check st 0))
            (tier_count (with_check st 0)) 0).
  apply find_min_adj_mono; [reflexivity | exact Hasc |].
  intros j _. rewrite !tier_breached_true_iff.
  unfold tier_minfree, tier_minfile. simpl.
  intros [Hf [Hfi | [Hc _]]]; [split; [exact Hf | left; exact Hfi] |].
  exfalso. apply Hc. reflexivity.
Qed.

Lemma file_check_never_raises_cutoff_witness :
  find_min_adj (with_check Scenario.pinned_cache 1)
  <= find_min_adj (with_check (with_check Scenario.pinned_cache 1) 0).
Proof.
  apply (file_check_never_raises_cutoff (with_check Scenario.pinned_cache 1)).
  split.
  - intros j k Hjk Hk.
    change (tier_count (with_check Scenario.pinned_cache 1)) with 6%nat in Hk.
    ascending_below_six j k.
  - intros i Hi.
    change (tier_count (with_check Scenario.pinned_cache 1)) with 6%nat in Hi.
    below_six i.
Defined.

(** X9.  With the cutoffs in ascending order, free swap never lowers the
    cutoff: as long as the credited sum fits an [int], the cutoff found
    with the free swap read is no lower than the one found with no free
    swap at all. *)
Theorem free_swap_never_lowers_cutoff (st : state) :
  cutoffs_ascending st ->
  is_ulong (freeswap st) ->
  is_int (other_file_raw st
          + Z.min (freeswap st) (to_ulong (fudgeswap st))) ->
  find_min_adj (with_freeswap st 0) <= find_min_adj st.
Proof.
  intros Hasc Hfs Hfit.
  assert (Hdry : other_file (with_freeswap st 0) = other_file_raw st).
  { unfold other_file, add_fudgeswap. simpl.
    destruct (CONFIG_SWAP st); [| reflexivity].
    destruct (fudgeswap st =? 0); reflexivity. }
  assert (Hwet : other_file_raw st <= other_file st).
  { destruct (CONFIG_SWAP st) eqn:Hswap.
    - rewrite (swap_credit_unsigned_budget st Hswap Hfs).
      rewrite (to_int_id _ Hfit).
      assert (0 <= to_ulong (fudgeswap st))
        by (unfold to_ulong; apply Z.mod_pos_bound; reflexivity).
      unfold is_ulong in Hfs. lia.
    - unfold other_file. rewrite Hswap. apply Z.le_refl. }
  unfold find_min_adj at 1.
  change (Z.to_nat (array_size (with_freeswap st 0))) with (tier_count st).
  apply find_min_adj_mono; [reflexivity | exact Hasc |].
  intros j _. rewrite !tier_breached_true_iff.
  unfold tier_minfree, tier_minfile. simpl.
  change (other_free (with_freeswap st 0)) with (other_free st).
  change (lru_file (with_freeswap st 0)) with (lru_file st).
  rewrite Hdry.
  intros [Hf [Hfi | Hc]]; (split; [exact Hf |]); [left; lia | right; exact Hc].
Qed.

Lemma free_swap_never_lowers_cutoff_witness :
  find_min_adj (with_freeswap Scenario.swap_relief 0)
  <= find_min_adj Scenario.swap_relief.
Proof.
  apply (free_swap_never_lowers_cutoff Scenario.swap_relief).
  - split.
    + intros j k Hjk Hk.
      change (tier_count Scenario.swap_relief) with 6%nat in Hk.
      ascending_below_six j k.
    + intros i Hi.
      change (tier_count Scenario.swap_relief) with 6%nat in Hi.
      below_six i.
  - vm_compute. split; discriminate.
  - vm_compute. split; discriminate.
Defined.

(** X10.  With the file-page check off, the snapshot counts through the
    larger of the free pages and the effective file pages only: a tier is
    breached when that larger value is below its min_free, and the LRU
    file pages play no part. *)
Theorem check_off_uses_the_larger_counter (st : state) (lru : Z) :
  lowmem_check_filepages st = 0 ->
  find_min_adj st
  = tier_walk st (Z.max (other_free st) (other_file st))
      (Z.max (other_free st) (other_file st)) lru (tier_count st) 0.
Proof.
  intros Hoff. unfold find_min_adj, tier_count.
  symmetry. apply tier_walk_ext. intros j _. simpl.
  apply eq_true_iff_eq. rewrite !tier_breached_true_iff.
  rewrite Hoff. split.
  - intros [Hm _]. split; [lia | left; lia].
  - intros [Hf [Hfi | [Hc _]]]; [| contradiction].
    split; [lia | left; lia].
Qed.

Lemma check_off_uses_the_larger_counter_witness :
  find_min_adj Scenario.mild_pressure
  = tier_walk Scenario.mild_pressure
      (Z.max (other_free Scenario.mild_pressure)
             (other_file Scenario.mild_pressure))
      (Z.max (other_free Scenario.mild_pressure)
             (other_file Scenario.mild_pressure))
      0 (tier_count Scenario.mild_pressure) 0.
Proof.
  apply (check_off_uses_the_larger_counter Scenario.mild_pressure 0).
  reflexivity.
Defined.

(** X11.  The example of the file's header.  With "0,8" written to adj
    and "1024,4096" to minfree, and the file-page check off: processes
    with an [oom_adj] of 0 or more are within reach when the free pages
    and the file pages are both below 1024, those with 8 or more when both
    are below 4096, and nobody otherwise. *)
Theorem header_example_holds (st : state) :
  lowmem_check_filepages st = 0 ->
  lowmem_adj_size st = 2 ->
  lowmem_minfree_size st = 2 ->
  (tier_adj st 0, tier_minfree st 0) = (0, 1024) ->
  (tier_adj st 1, tier_minfree st 1) = (8, 4096) ->
  (Z.max (other_free st) (other_file st) < 1024 -> find_min_adj st = 0)
  /\ (1024 <= Z.max (other_free st) (other_file st) < 4096 ->
      find_min_adj st = 8)
  /\ (4096 <= Z.max (other_free st) (other_file st) ->
      find_min_adj st = OOM_ADJUST_MAX + 1).
Proof.
  intros Hoff Hadj Hmin Ht0 Ht1.
  unfold tier_adj, tier_minfree in Ht0, Ht1.
  injection Ht0 as Ha0 Hf0. injection Ht1 as Ha1 Hf1.
  unfold find_min_adj, array_size, ARRAY_SIZE. rewrite Hadj, Hmin. simpl.
  unfold tier_breached. rewrite Hoff, Hf0, Hf1, Ha0, Ha1. simpl.
  rewrite !orb_false_r.
  repeat split; intros Hm.
  - replace (other_free st <? 1024) with true by (symmetry; apply Z.ltb_lt; lia).
    replace (other_file st <? 1024) with true by (symmetry; apply Z.ltb_lt; lia).
    reflexivity.
  - replace (other_free st <? 4096) with true by (symmetry; apply Z.ltb_lt; lia).
    replace (other_file st <? 4096) with true by (symmetry; apply Z.ltb_lt; lia).
    destruct (other_free st <? 1024) eqn:H1; [| reflexivity].
    destruct (other_file st <? 1024) eqn:H2; [| reflexivity].
    apply Z.ltb_lt in H1. apply Z.ltb_lt in H2. lia.
  - destruct (other_free st <? 1024) eqn:H1;
      destruct (other_file st <? 1024) eqn:H2;
      destruct (other_free st <? 4096) eqn:H3;
      destruct (other_file st <? 4096) eqn:H4;
      simpl; try reflexivity;
      rewrite ?Z.ltb_lt, ?Z.ltb_ge in *; lia.
Qed.

Lemma header_example_holds_witness :
  (Z.max (other_free Scenario.header_example)
         (other_file Scenario.header_example) < 1024 ->
   find_min_adj Scenario.header_example = 0)
  /\ (1024 <= Z.max (other_free Scenario.header_example)
                    (other_file Scenario.header_example) < 4096 ->
      find_min_adj Scenario.header_example = 8)
  /\ (4096 <= Z.max (other_free Scenario.header_example)
                    (other_file Scenario.header_example) ->
      find_min_adj Scenario.header_example = OOM_ADJUST_MAX + 1).
Proof.
  apply (header_example_holds Scenario.header_example); reflexivity.
Defined.

(** ** Edges of the table *)

Lemma nth_firstn_eq (l l' : list Z) (n i : nat) :
  firstn n l = firstn n l' -> (i < n)%nat -> nth i l 0 = nth i l' 0.
Proof.
  revert l l' i. induction n as [|n' IH]; intros l l' i Heq Hi; [lia|].
  destruct l as [|x r]; destruct l' as [|x' r']; simpl in Heq;
    try discriminate; [reflexivity|].
  injection Heq as Hx Hr. destruct i as [|i']; simpl; [exact Hx|].
  apply IH; [exact Hr | lia].
Qed.

(** X12.  The walk starts at the first cell and stays inside the
    tables: it reads the cells below index 6 and below the declared
    lengths of the cutoff and the min_free table, and no other.  Whatever
    is put in the cells at or beyond that bound, of any of the three
    arrays, the cutoff found and the outcome of the call are the same;
    when the bound is positive and the first tier is breached, its cutoff
    is the one found.  A declared length of zero or less for either table
    makes every call return 0 at once: an empty table never kills. *)
Theorem walk_stays_inside_the_tables (st : state)
    (adj minfree minfile : list Z) (nr_to_scan : Z) :
  (firstn (shorter_length st) adj
   = firstn (shorter_length st) (lowmem_adj st) ->
   firstn (shorter_length st) minfree
   = firstn (shorter_length st) (lowmem_minfree st) ->
   firstn (shorter_length st) minfile
   = firstn (shorter_length st) (lowmem_minfile st) ->
   find_min_adj (with_tables st adj minfree minfile) = find_min_adj st
   /\ fst (lowmem_shrink (with_tables st adj minfree minfile) nr_to_scan)
      = fst (lowmem_shrink st nr_to_scan))
  /\ ((0 < shorter_length st)%nat ->
      tier_breached st (other_free st) (other_file st) (lru_file st) 0 = true ->
      find_min_adj st = tier_adj st 0)
  /\ (lowmem_adj_size st <= 0 \/ lowmem_minfree_size st <= 0 ->
      lowmem_shrink st nr_to_scan = (NoActionNeeded, st)).
Proof.
  split; [| split].
  3:{ intros Hempty. apply lowmem_shrink_no_tier.
      unfold find_min_adj. rewrite loop_bound_is_shorter_length.
      unfold shorter_length.
      replace (Z.to_nat (Z.min 6 (Z.min (lowmem_adj_size st)
                                        (lowmem_minfree_size st))))
        with 0%nat by lia.
      reflexivity. }
  2:{ intros Hpos Hfirst. unfold find_min_adj, tier_adj.
      rewrite loop_bound_is_shorter_length.
      apply tier_walk_first; [exact Hpos | exact Hfirst |].
      intros j Hj. lia. }
  - intros Hadj Hmin Hfile.
    assert (Hcut : find_min_adj (with_tables st adj minfree minfile)
                   = find_min_adj st).
    { unfold find_min_adj.
      change (array_size (with_tables st adj minfree minfile))
        with (array_size st).
      change (other_free (with_tables st adj minfree minfile))
        with (other_free st).
      change (other_file (with_tables st adj minfree minfile))
        with (other_file st).
      change (lru_file (with_tables st adj minfree minfile))
        with (lru_file st).
      rewrite loop_bound_is_shorter_length, !tier_walk_as_tier_list.
      change (lowmem_check_filepages (with_tables st adj minfree minfile))
        with (lowmem_check_filepages st).
      do 2 f_equal. apply map_ext_in. intros i Hi.
      apply in_seq in Hi. unfold tier_of, tier_adj, tier_minfree, tier_minfile.
      simpl.
      rewrite (nth_firstn_eq _ _ _ i Hadj) by lia.
      rewrite (nth_firstn_eq _ _ _ i Hmin) by lia.
      rewrite (nth_firstn_eq _ _ _ i Hfile) by lia.
      reflexivity. }
    split; [exact Hcut |].
    unfold lowmem_shrink. rewrite Hcut.
    destruct (find_min_adj st =? OOM_ADJUST_MAX + 1); [reflexivity|].
    destruct (nr_to_scan <=? 0); [reflexivity|]. simpl.
    destruct (scan_tasks (jiffies st) (lowmem_deathpending_timeout st)
                (find_min_adj st) (tasks st) 0 None) as [| [s|]];
      reflexivity.
Qed.

(** X13.  A cutoff of [OOM_ADJUST_MAX + 1] in the table reads as no
    tier: when the first tier breached has that cutoff, the call returns
    0 at once like a call under no pressure; the process list is not
    scanned and the later tiers are not looked at. *)
Theorem cutoff_16_reads_as_no_tier (st : state) (nr_to_scan : Z) (i : nat) :
  (i < tier_count st)%nat ->
  tier_breached st (other_free st) (other_file st) (lru_file st) i = true ->
  (forall j : nat, (j < i)%nat ->
     tier_breached st (other_free st) (other_file st) (lru_file st) j = false) ->
  tier_adj st i = OOM_ADJUST_MAX + 1 ->
  lowmem_shrink st nr_to_scan = (NoActionNeeded, st).
Proof.
  intros Hi Hb Hbefore Hadj. unfold tier_count in Hi.
  apply lowmem_shrink_no_tier. unfold find_min_adj.
  rewrite (tier_walk_first st _ _ _ _ i Hi Hb Hbefore). exact Hadj.
Qed.

Lemma cutoff_16_reads_as_no_tier_witness :
  lowmem_shrink Scenario.sentinel_cutoff 1
  = (NoActionNeeded, Scenario.sentinel_cutoff).
Proof.
  apply (cutoff_16_reads_as_no_tier Scenario.sentinel_cutoff 1 0).
  - change (tier_count Scenario.sentinel_cutoff) with 6%nat. lia.
  - reflexivity.
  - intros j Hj. lia.
  - reflexivity.
Defined.

(** ** The order of enumeration *)

Lemma death_pending_perm (now timeout : Z) (ts ts' : list task_struct) :
  Permutation ts ts' ->
  (forall t, In t ts -> ~ death_pending now timeout t) ->
  forall t, In t ts' -> ~ death_pending now timeout t.
Proof.
  intros Hperm Hnone t Hin. apply Hnone.
  apply Permutation_in with (l := ts'); [| exact Hin].
  apply Permutation_sym. exact Hperm.
Qed.

(** X14.  The priority value and the resident size of the task selected
    do not depend on the order in which the processes are enumerated:
    when a scan ends with a task selected, the scan of any permutation of
    the list ends with a task of the same [oom_adj] and the same size
    selected.  (Which of several tasks tied on both is selected does
    depend on the order.) *)
Theorem victim_rank_is_order_independent (now timeout min_adj : Z)
    (ts ts' : list task_struct) (s : selection) :
  Permutation ts ts' ->
  scan_tasks now timeout min_adj ts 0 None = ScanDone (Some s) ->
  exists s' : selection,
    scan_tasks now timeout min_adj ts' 0 None = ScanDone (Some s')
    /\ sel_oom_adj s' = sel_oom_adj s
    /\ sel_tasksize s' = sel_tasksize s.
Proof.
  intros Hperm Hscan.
  assert (Hnodying : forall t, In t ts -> ~ death_pending now timeout t).
  { intros t Hin Hd.
    rewrite scan_tasks_dying in Hscan; [discriminate|].
    exists t. split; assumption. }
  pose proof (death_pending_perm _ _ _ _ Hperm Hnodying) as Hnodying'.
  destruct (scan_tasks_no_abort now timeout min_adj ts' 0 None Hnodying')
    as [r' Hscan'].
  pose proof (scan_tasks_result_ok _ _ _ _ _ Hscan) as Hok.
  pose proof (scan_tasks_result_ok _ _ _ _ _ Hscan') as Hok'.
  simpl in Hok.
  destruct Hok as [p [Hp [Hel [Hadj [Hsize [Hmax _]]]]]].
  assert (Hin' : In p ts').
  { apply Permutation_in with (l := ts); [exact Hperm |].
    apply nth_error_In with (n := sel_index s). exact Hp. }
  destruct r' as [s'|]; simpl in Hok'.
  - destruct Hok' as [p' [Hp' [Hel' [Hadj' [Hsize' [Hmax' _]]]]]].
    exists s'. split; [exact Hscan' |].
    assert (Hin : In p' ts).
    { apply Permutation_in with (l := ts');
        [apply Permutation_sym; exact Hperm |].
      apply nth_error_In with (n := sel_index s'). exact Hp'. }
    destruct (In_nth_error _ _ Hin') as [j' Hj'].
    destruct (In_nth_error _ _ Hin) as [j Hj].
    pose proof (Hmax' j' p Hj' Hel) as Hle1.
    pose proof (Hmax j p' Hj Hel') as Hle2.
    unfold ranks_le in Hle1, Hle2. rewrite Hadj, Hadj', Hsize, Hsize'. lia.
  - exfalso. exact (Hok' p Hin' Hel).
Qed.

Lemma victim_rank_is_order_independent_witness :
  exists s' : selection,
    scan_tasks 1000 0 6 Scenario.tie_candidates_shuffled 0 None
    = ScanDone (Some s')
    /\ sel_oom_adj s' = sel_oom_adj (Selection 3 500 15)
    /\ sel_tasksize s' = sel_tasksize (Selection 3 500 15).
Proof.
  apply (victim_rank_is_order_independent 1000 0 6
           Scenario.tie_candidates Scenario.tie_candidates_shuffled
           (Selection 3 500 15)).
  - unfold Scenario.tie_candidates, Scenario.tie_candidates_shuffled.
    (* 2 50 61 62 63 64  ~  63 64 2 62 50 61 *)
    apply Permutation_sym.
    apply Permutation_cons_app with
      (l1 := [Task 2 true None false 0; Task 50 false (Some 900) false 4;
              Task 61 false (Some 300) false 15;
              Task 62 false (Some 500) false 15])
      (l2 := [Task 64 false (Some 800) false 6]).
    apply Permutation_cons_app with
      (l1 := [Task 2 true None false 0; Task 50 false (Some 900) false 4;
              Task 61 false (Some 300) false 15;
              Task 62 false (Some 500) false 15])
      (l2 := []).
    apply perm_skip.
    apply Permutation_cons_app with
      (l1 := [Task 50 false (Some 900) false 4;
              Task 61 false (Some 300) false 15])
      (l2 := []).
    apply perm_skip. apply Permutation_refl.
  - reflexivity.
Defined.

Lemma walk_stays_inside_the_tables_witness :
  (find_min_adj
     (with_tables Scenario.six_and_four
        [0; 1; 2; 4; 0; 0; 0]
        [1536; 2048; 3072; 4096; 9999; 9999; 9999]
        [1536; 2048; 4096; 8192; 0; 0; 0])
   = find_min_adj Scenario.six_and_four
   /\ fst (lowmem_shrink
             (with_tables Scenario.six_and_four
                [0; 1; 2; 4; 0; 0; 0]
                [1536; 2048; 3072; 4096; 9999; 9999; 9999]
                [1536; 2048; 4096; 8192; 0; 0; 0]) 1)
      = fst (lowmem_shrink Scenario.six_and_four 1))
  /\ find_min_adj Scenario.two_victims = tier_adj Scenario.two_victims 0
  /\ lowmem_shrink Scenario.empty_table 1
     = (NoActionNeeded, Scenario.empty_table).
Proof.
  split; [| split].
  - apply (proj1 (walk_stays_inside_the_tables Scenario.six_and_four
                    [0; 1; 2; 4; 0; 0; 0]
                    [1536; 2048; 3072; 4096; 9999; 9999; 9999]
                    [1536; 2048; 4096; 8192; 0; 0; 0] 1));
      reflexivity.
  - apply (proj1 (proj2 (walk_stays_inside_the_tables Scenario.two_victims
                           [] [] [] 1))).
    + change (shorter_length Scenario.two_victims) with 6%nat. lia.
    + reflexivity.
  - apply (proj2 (proj2 (walk_stays_inside_the_tables Scenario.empty_table
                           [] [] [] 1))).
    left. vm_compute. discriminate.
Defined.

(** ** The early-suspend handlers *)

Lemma memcpy_length (dst src : list Z) (n : nat) :
  length dst = n -> length src = n -> length (memcpy dst src n) = n.
Proof.
  intros Hdst Hsrc. rewrite memcpy_whole; assumption.
Qed.

(** The saved tables play no part in a call. *)
Lemma lowmem_shrink_ignores_saved_table (st : state) (screen_on : list Z)
    (nr_to_scan : Z) :
  fst (lowmem_shrink (set_minfree st (lowmem_minfree st) screen_on) nr_to_scan)
  = fst (lowmem_shrink st nr_to_scan).
Proof.
  assert (Hmin : find_min_adj (set_minfree st (lowmem_minfree st) screen_on)
                 = find_min_adj st).
  { unfold find_min_adj.
    change (array_size (set_minfree st (lowmem_minfree st) screen_on))
      with (array_size st).
    apply tier_walk_same_table; reflexivity. }
  unfold lowmem_shrink. rewrite Hmin.
  destruct (find_min_adj st =? OOM_ADJUST_MAX + 1); [reflexivity|].
  destruct (nr_to_scan <=? 0); [reflexivity|]. simpl.
  destruct (scan_tasks (jiffies st) (lowmem_deathpending_timeout st)
              (find_min_adj st) (tasks st) 0 None) as [| [s|]];
    reflexivity.
Qed.

(** X15.  A suspend followed by a resume gives back the state of before
    the suspend, but for the saved screen-on table, which now holds the
    active table; every call of [lowmem_shrink] then ends as it would
    have ended before the suspend. *)
Theorem suspend_resume_cycle_keeps_the_verdict (st : state) :
  minfree_arrays_sized st ->
  low_mem_late_resume (low_mem_early_suspend st)
  = set_minfree st (lowmem_minfree st) (lowmem_minfree st)
  /\ (forall nr_to_scan : Z,
        fst (lowmem_shrink (low_mem_late_resume (low_mem_early_suspend st))
               nr_to_scan)
        = fst (lowmem_shrink st nr_to_scan)).
Proof.
  intros [Hmin [Hon Hoff]].
  assert (Hcycle : low_mem_late_resume (low_mem_early_suspend st)
                   = set_minfree st (lowmem_minfree st) (lowmem_minfree st)).
  { unfold low_mem_late_resume, low_mem_early_suspend, set_minfree. simpl.
    rewrite (memcpy_whole (lowmem_minfree_screen_on st) (lowmem_minfree st))
      by assumption.
    rewrite (memcpy_whole (lowmem_minfree st) (lowmem_minfree_screen_off st))
      by assumption.
    rewrite (memcpy_whole (lowmem_minfree_screen_off st) (lowmem_minfree st))
      by assumption.
    reflexivity. }
  split; [exact Hcycle |].
  intros nr. rewrite Hcycle. apply lowmem_shrink_ignores_saved_table.
Qed.

Lemma suspend_resume_cycle_keeps_the_verdict_witness :
  low_mem_late_resume (low_mem_early_suspend Scenario.screen_off_profile)
  = set_minfree Scenario.screen_off_profile
      (lowmem_minfree Scenario.screen_off_profile)
      (lowmem_minfree Scenario.screen_off_profile)
  /\ (forall nr_to_scan : Z,
        fst (lowmem_shrink
               (low_mem_late_resume
                  (low_mem_early_suspend Scenario.screen_off_profile))
               nr_to_scan)
        = fst (lowmem_shrink Scenario.screen_off_profile nr_to_scan)).
Proof.
  apply (suspend_resume_cycle_keeps_the_verdict Scenario.screen_off_profile).
  repeat split; reflexivity.
Defined.

(** X16.  The resume handler is idempotent: a second resume in a row
    changes nothing. *)
Theorem resume_is_idempotent (st : state) :
  minfree_arrays_sized st ->
  low_mem_late_resume (low_mem_late_resume st) = low_mem_late_resume st.
Proof.
  intros [Hmin [Hon Hoff]].
  unfold low_mem_late_resume, set_minfree. simpl.
  rewrite (memcpy_whole (lowmem_minfree st) (lowmem_minfree_screen_on st))
    by assumption.
  rewrite (memcpy_whole (lowmem_minfree_screen_on st)
             (lowmem_minfree_screen_on st)) by assumption.
  reflexivity.
Qed.

Lemma resume_is_idempotent_witness :
  low_mem_late_resume (low_mem_late_resume Scenario.screen_off_profile)
  = low_mem_late_resume Scenario.screen_off_profile.
Proof.
  apply (resume_is_idempotent Scenario.screen_off_profile).
  repeat split; reflexivity.
Defined.

(** X17.  The suspend handler has one slot to save into: a second
    suspend without a resume in between saves the screen-off table over
    the table that was active before the first, and the resume that
    follows installs the screen-off table, not the original one. *)
Theorem second_suspend_loses_the_saved_table (st : state) :
  minfree_arrays_sized st ->
  lowmem_minfree_screen_on (low_mem_early_suspend (low_mem_early_suspend st))
  = lowmem_minfree_screen_off st
  /\ lowmem_minfree
       (low_mem_late_resume
          (low_mem_early_suspend (low_mem_early_suspend st)))
     = lowmem_minfree_screen_off st.
Proof.
  intros [Hmin [Hon Hoff]].
  unfold low_mem_late_resume, low_mem_early_suspend, set_minfree. simpl.
  rewrite (memcpy_whole (lowmem_minfree_screen_on st) (lowmem_minfree st))
    by assumption.
  rewrite (memcpy_whole (lowmem_minfree st) (lowmem_minfree_screen_off st))
    by assumption.
  rewrite (memcpy_whole (lowmem_minfree st) (lowmem_minfree_screen_off st))
    by assumption.
  rewrite (memcpy_whole (lowmem_minfree_screen_off st)
             (lowmem_minfree_screen_off st)) by assumption.
  rewrite (memcpy_whole (lowmem_minfree_screen_off st)
             (lowmem_minfree_screen_off st)) by assumption.
  split; reflexivity.
Qed.

Lemma second_suspend_loses_the_saved_table_witness :
  lowmem_minfree_screen_on
    (low_mem_early_suspend (low_mem_early_suspend Scenario.screen_off_profile))
  = lowmem_minfree_screen_off Scenario.screen_off_profile
  /\ lowmem_minfree
       (low_mem_late_resume
          (low_mem_early_suspend
             (low_mem_early_suspend Scenario.screen_off_profile)))
     = lowmem_minfree_screen_off Scenario.screen_off_profile.
Proof.
  apply (second_suspend_loses_the_saved_table Scenario.screen_off_profile).
  repeat split; reflexivity.
Defined.

(** X18.  The resume handler installs the table saved at the suspend,
    whatever was done to the active table in between: for any later state
    that still has the six-cell arrays and the saved table of the
    suspend, the resume gives back the table active before the suspend.
    Calls of [lowmem_shrink] in between are such states. *)
Theorem resume_restores_the_table_saved_at_suspend (st later : state) :
  minfree_arrays_sized st ->
  minfree_arrays_sized later ->
  lowmem_minfree_screen_on later
  = lowmem_minfree_screen_on (low_mem_early_suspend st) ->
  lowmem_minfree (low_mem_late_resume later) = lowmem_minfree st.
Proof.
  intros [Hmin [Hon Hoff]] [Hmin' [Hon' Hoff']] Hsaved.
  unfold low_mem_late_resume, set_minfree. simpl.
  rewrite (memcpy_whole (lowmem_minfree later)
             (lowmem_minfree_screen_on later)) by assumption.
  rewrite Hsaved. unfold low_mem_early_suspend, set_minfree. simpl.
  apply memcpy_whole; assumption.
Qed.

Lemma resume_restores_the_table_saved_at_suspend_witness :
  lowmem_minfree
    (low_mem_late_resume
       (snd (lowmem_shrink
               (low_mem_early_suspend Scenario.screen_off_profile) 1)))
  = lowmem_minfree Scenario.screen_off_profile.
Proof.
  apply (resume_restores_the_table_saved_at_suspend
           Scenario.screen_off_profile
           (snd (lowmem_shrink
                   (low_mem_early_suspend Scenario.screen_off_profile) 1))).
  - repeat split; reflexivity.
  - repeat split; reflexivity.
  - reflexivity.
Defined.

(** X19.  Both handlers keep the three min_free arrays at their six
    cells and write nothing but the active and the saved screen-on table:
    the cutoffs, the file minimums, the declared lengths, the screen-off
    table, the toggles, the deadline, the process list and the signals
    sent are as they were, and the walk covers the same number of tiers. *)
Theorem handlers_keep_the_arrays_sized (st : state) :
  minfree_arrays_sized st ->
  (minfree_arrays_sized (low_mem_early_suspend st)
   /\ only_minfree_tables_differ st (low_mem_early_suspend st)
   /\ tier_count (low_mem_early_suspend st) = tier_count st)
  /\ (minfree_arrays_sized (low_mem_late_resume st)
      /\ only_minfree_tables_differ st (low_mem_late_resume st)
      /\ tier_count (low_mem_late_resume st) = tier_count st).
Proof.
  intros [Hmin [Hon Hoff]].
  unfold minfree_arrays_sized, only_minfree_tables_differ,
    low_mem_early_suspend, low_mem_late_resume. simpl.
  repeat split; try assumption; apply memcpy_length; assumption.
Qed.

Lemma handlers_keep_the_arrays_sized_witness :
  (minfree_arrays_sized (low_mem_early_suspend Scenario.screen_off_profile)
   /\ only_minfree_tables_differ Scenario.screen_off_profile
        (low_mem_early_suspend Scenario.screen_off_profile)
   /\ tier_count (low_mem_early_suspend Scenario.screen_off_profile)
      = tier_count Scenario.screen_off_profile)
  /\ (minfree_arrays_sized (low_mem_late_resume Scenario.screen_off_profile)
      /\ only_minfree_tables_differ Scenario.screen_off_profile
           (low_mem_late_resume Scenario.screen_off_profile)
      /\ tier_count (low_mem_late_resume Scenario.screen_off_profile)
         = tier_count Scenario.screen_off_profile).
Proof.
  apply (handlers_keep_the_arrays_sized Scenario.screen_off_profile).
  repeat split; reflexivity.
Defined.

(** X20.  A screen-off table that is at least as high as the active one
    on every tier walked never raises the cutoff: with the cutoffs in
    ascending order, the cutoff found after the suspend is no higher than
    the one found before it on the same snapshot. *)
Theorem higher_screen_off_table_never_raises_cutoff (st : state) :
  minfree_arrays_sized st ->
  cutoffs_ascending st ->
  (forall i : nat, (i < tier_count st)%nat ->
     tier_minfree st i <= nth i (lowmem_minfree_screen_off st) 0) ->
  find_min_adj (low_mem_early_suspend st) <= find_min_adj st.
Proof.
  intros [Hmin [Hon Hoff]] Hasc Hhigher.
  assert (Htable : lowmem_minfree (low_mem_early_suspend st)
                   = lowmem_minfree_screen_off st).
  { unfold low_mem_early_suspend, set_minfree. simpl.
    apply memcpy_whole; assumption. }
  unfold find_min_adj at 1.
  change (Z.to_nat (array_size (low_mem_early_suspend st)))
    with (tier_count st).
  change (other_free (low_mem_early_suspend st)) with (other_free st).
  change (other_file (low_mem_early_suspend st)) with (other_file st).
  change (lru_file (low_mem_early_suspend st)) with (lru_file st).
  apply find_min_adj_mono; [reflexivity | exact Hasc |].
  intros j Hj. rewrite !tier_breached_true_iff.
  unfold tier_minfree, tier_minfile. rewrite Htable.
  change (lowmem_minfile (low_mem_early_suspend st)) with (lowmem_minfile st).
  change (lowmem_check_filepages (low_mem_early_suspend st))
    with (lowmem_check_filepages st).
  specialize (Hhigher j Hj). unfold tier_minfree in Hhigher.
  intros [Hf [Hfi | Hc]]; (split; [lia |]); [left; lia | right; exact Hc].
Qed.

Lemma higher_screen_off_table_never_raises_cutoff_witness :
  find_min_adj (low_mem_early_suspend Scenario.eager_screen_off)
  <= find_min_adj Scenario.eager_screen_off.
Proof.
  apply (higher_screen_off_table_never_raises_cutoff Scenario.eager_screen_off).
  - repeat split; reflexivity.
  - split.
    + intros j k Hjk Hk.
      change (tier_count Scenario.eager_screen_off) with 6%nat in Hk.
      ascending_below_six j k.
    + intros i Hi.
      change (tier_count Scenario.eager_screen_off) with 6%nat in Hi.
      below_six i.
  - intros i Hi.
    change (tier_count Scenario.eager_screen_off) with 6%nat in Hi.
    below_six i.
Defined.

(** ** Runs of calls *)

Lemma same_task_flag_kept_refl (t : task_struct) : same_task_flag_kept t t.
Proof. unfold same_task_flag_kept. repeat split. auto. Qed.

Lemma tasks_only_flagged_refl (ts : list task_struct) :
  tasks_only_flagged ts ts.
Proof.
  induction ts as [|t rest IH]; constructor;
    [apply same_task_flag_kept_refl | exact IH].
Qed.

Lemma tasks_only_flagged_trans (ts1 ts2 ts3 : list task_struct) :
  tasks_only_flagged ts1 ts2 -> tasks_only_flagged ts2 ts3 ->
  tasks_only_flagged ts1 ts3.
Proof.
  intros H12. revert ts3.
  induction H12 as [|t1 t2 r1 r2 Ht Hr IH]; intros ts3 H23;
    inversion H23 as [|t2' t3 r2' r3 Ht' Hr']; subst; constructor.
  - destruct Ht as [Hp [Hk [Hm [Ha Hf]]]].
    destruct Ht' as [Hp' [Hk' [Hm' [Ha' Hf']]]].
    unfold same_task_flag_kept.
    repeat split; try congruence. auto.
  - apply IH. exact Hr'.
Qed.

Lemma set_memdie_at_only_flags (ts : list task_struct) (i : nat) :
  tasks_only_flagged ts (set_memdie_at i ts).
Proof.
  revert i. induction ts as [|t rest IH]; intros i.
  - destruct i; constructor.
  - destruct i as [|i']; simpl; constructor.
    + unfold same_task_flag_kept, set_tsk_memdie. simpl. repeat split.
    + apply tasks_only_flagged_refl.
    + apply same_task_flag_kept_refl.
    + apply IH.
Qed.

(** One call: the signals sent grow by the pid of the victim when the
    call kills and not at all otherwise, and the process list gets flags
    set at most. *)
Lemma lowmem_shrink_step (st : state) (nr_to_scan : Z) :
  sigkill_sent (snd (lowmem_shrink st nr_to_scan))
  = sigkill_sent st ++ killed_pid (fst (lowmem_shrink st nr_to_scan))
  /\ tasks_only_flagged (tasks st) (tasks (snd (lowmem_shrink st nr_to_scan))).
Proof.
  unfold lowmem_shrink.
  destruct (find_min_adj st =? OOM_ADJUST_MAX + 1).
  { simpl. rewrite app_nil_r. split; [reflexivity | apply tasks_only_flagged_refl]. }
  destruct (nr_to_scan <=? 0).
  { simpl. rewrite app_nil_r. split; [reflexivity | apply tasks_only_flagged_refl]. }
  destruct (scan_tasks (jiffies st) (lowmem_deathpending_timeout st)
              (find_min_adj st) (tasks st) 0 None) as [| [s|]]; simpl.
  - rewrite app_nil_r. split; [reflexivity | apply tasks_only_flagged_refl].
  - split; [reflexivity | apply set_memdie_at_only_flags].
  - rewrite app_nil_r. split; [reflexivity | apply tasks_only_flagged_refl].
Qed.

(** X21.  Over any run of calls, one signal is sent per kill and none
    otherwise: the signals sent after the run are those sent before it
    followed by the victims of the kills, in order, so their number grows
    by at most the number of calls. *)
Theorem one_signal_per_kill (n : nat) (st : state) (nr_to_scan : Z) :
  sigkill_sent (snd (shrink_repeatedly n st nr_to_scan))
  = sigkill_sent st
    ++ flat_map killed_pid (fst (shrink_repeatedly n st nr_to_scan))
  /\ length (fst (shrink_repeatedly n st nr_to_scan)) = n
  /\ (length (sigkill_sent (snd (shrink_repeatedly n st nr_to_scan)))
      <= length (sigkill_sent st) + n)%nat.
Proof.
  revert st. induction n as [|n' IH]; intros st; simpl.
  - rewrite app_nil_r. repeat split. lia.
  - destruct (lowmem_shrink_step st nr_to_scan) as [Hsig _].
    destruct (lowmem_shrink st nr_to_scan) as [o st1] eqn:Hcall.
    simpl in Hsig.
    destruct (IH st1) as [Hsigs [Hlen Hbound]].
    destruct (shrink_repeatedly n' st1 nr_to_scan) as [os st2] eqn:Hrun.
    simpl in *. rewrite Hsigs, Hsig, <- app_assoc.
    split; [reflexivity | split; [lia |]].
    rewrite Hsigs, Hsig in Hbound.
    rewrite !length_app in *.
    assert (length (killed_pid o) <= 1)%nat by (destruct o; simpl; lia).
    lia.
Qed.

(** X22.  Over any run of calls the process list keeps its entries:
    same length, and entry by entry the same pid, kind, address space and
    priority value; a TIF_MEMDIE flag that is set stays set.  The driver
    sets the flag and never clears it. *)
Theorem flags_are_set_and_never_cleared (n : nat) (st : state)
    (nr_to_scan : Z) :
  tasks_only_flagged (tasks st)
    (tasks (snd (shrink_repeatedly n st nr_to_scan)))
  /\ length (tasks (snd (shrink_repeatedly n st nr_to_scan)))
     = length (tasks st).
Proof.
  assert (Hrun : forall m s,
            tasks_only_flagged (tasks s)
              (tasks (snd (shrink_repeatedly m s nr_to_scan)))).
  { induction m as [|m' IH]; intros s; simpl.
    - apply tasks_only_flagged_refl.
    - destruct (lowmem_shrink_step s nr_to_scan) as [_ Hstep].
      destruct (lowmem_shrink s nr_to_scan) as [o s1].
      specialize (IH s1).
      destruct (shrink_repeatedly m' s1 nr_to_scan) as [os s2].
      simpl in *. exact (tasks_only_flagged_trans _ _ _ Hstep IH). }
  split; [apply Hrun |].
  symmetry. exact (Forall2_length (Hrun n st)).
Qed.
